(** * personal-ci-server: the build-trigger pipeline of [src/index.js]

    A shallow embedding of the webhook handlers of the CI server
    ([updateStatus], [makeBuild], [buildProcess], [buildPRProcess],
    [deployProcess] and the [push] handler, in the later of the two
    versions of the file, the one with [deployProcess]) together with the
    facts the specification states about them.  The earlier version of
    the handlers and [createWebhook] follow, with further properties of
    the code.

    The JavaScript is effectful: it posts to the status API, runs shell
    commands, reads the file system and the clock, writes to the console,
    and rejects promises.  The embedding threads a [World] through a small
    state-and-exception monad that also collects the [Effect]s performed,
    in order; what the outside answers (HTTP replies, exit codes) is read
    from an [Env]. *)

From Stdlib Require Import String Ascii List ZArith Lia Bool DecimalString.
From Stdlib Require DecimalPos DecimalZ.
Import ListNotations.
Open Scope string_scope.

(** ** JavaScript values *)

(** The values that reach the code from the REST client's callback and that
    travel as rejection reasons.  Objects are opaque: the code only tests
    them for truthiness or prints them. *)
Inductive jsval :=
| JUndefined
| JNull
| JBool (b : bool)
| JNum (z : Z)
| JStr (s : string)
| JObj (repr : string).

(** [if (v)]: ToBoolean. *)
Definition truthy (v : jsval) : bool :=
  match v with
  | JUndefined | JNull => false
  | JBool b => b
  | JNum z => negb (z =? 0)%Z
  | JStr s => negb (s =? "")
  | JObj _ => true
  end.

(** Decimal rendering of an integer, as a template literal prints it. *)
Definition string_of_Z (z : Z) : string := NilZero.string_of_int (Z.to_int z).

(** [`${v}`]: ToString. *)
Definition toString (v : jsval) : string :=
  match v with
  | JUndefined => "undefined"
  | JNull => "null"
  | JBool true => "true"
  | JBool false => "false"
  | JNum z => string_of_Z z
  | JStr s => s
  | JObj _ => "[object Object]"
  end.

(** ** Strings: [String.prototype.replace] with a string pattern *)

(** [stripPrefix p s] is what follows [p] in [s] when [s] starts with [p]. *)
Fixpoint stripPrefix (p s : string) : option string :=
  match p with
  | EmptyString => Some s
  | String a p' =>
      match s with
      | EmptyString => None
      | String b s' => if Ascii.eqb a b then stripPrefix p' s' else None
      end
  end.

(** The text before and after the first (leftmost) occurrence of [pat]. *)
Fixpoint splitFirst (pat s : string) : option (string * string) :=
  match stripPrefix pat s with
  | Some rest => Some (EmptyString, rest)
  | None =>
      match s with
      | EmptyString => None
      | String c s' =>
          match splitFirst pat s' with
          | Some (before, after) => Some (String c before, after)
          | None => None
          end
      end
  end.

(** GetSubstitution for a string pattern (no capture groups): in the
    replacement text [$$] is a dollar, [$&] the matched text, [$`] the
    text before the match and [$'] the text after it; any other dollar
    stands for itself. *)
Fixpoint getSubstitution (matched before after repl : string) : string :=
  match repl with
  | EmptyString => EmptyString
  | String c r =>
      if Ascii.eqb c "$" then
        match r with
        | String d r' =>
            if Ascii.eqb d "$" then String "$" (getSubstitution matched before after r')
            else if Ascii.eqb d "&" then matched ++ getSubstitution matched before after r'
            else if Ascii.eqb d "`" then before ++ getSubstitution matched before after r'
            else if Ascii.eqb d "'" then after ++ getSubstitution matched before after r'
            else String c (getSubstitution matched before after r)
        | EmptyString => String c EmptyString
        end
      else String c (getSubstitution matched before after r)
  end.

(** [s.replace(pat, repl)] for strings [pat] and [repl]: only the first
    occurrence is replaced; without one, [s] is returned as it is. *)
Definition replace (s pat repl : string) : string :=
  match splitFirst pat s with
  | Some (before, after) => before ++ getSubstitution pat before after repl ++ after
  | None => s
  end.

(** [arr.indexOf(x)] on an array of strings: the first index holding [x],
    or -1. *)
Fixpoint indexOf (arr : list string) (x : string) : Z :=
  match arr with
  | [] => (-1)%Z
  | y :: arr' =>
      if y =? x then 0%Z
      else let i := indexOf arr' x in if (i <? 0)%Z then (-1)%Z else (i + 1)%Z
  end.

(** ** Paths *)

(** The directories [mkdir -p path] makes sure exist: every prefix of
    [path] that ends before a slash, and [path] itself. *)
Fixpoint path_prefixes_from (acc rest : string) : list string :=
  match rest with
  | EmptyString => if acc =? "" then [] else [acc]
  | String c rest' =>
      if Ascii.eqb c "/" && negb (acc =? "")
      then acc :: path_prefixes_from (acc ++ String c EmptyString) rest'
      else path_prefixes_from (acc ++ String c EmptyString) rest'
  end.

Definition path_prefixes (path : string) : list string :=
  path_prefixes_from EmptyString path.

(** ** Webhook payloads

    The fields of the decoded GitHub events that the handlers read, nested
    as in the JSON. *)

Module Push.
Record Repository := { clone_url : string; statuses_url : string }.
Record HeadCommit := { id : string }.
Record Payload := { ref : string; head_commit : HeadCommit; repository : Repository }.
Record Event := { payload : Payload }.
End Push.

Module PR.
Record Repo := { clone_url : string }.
Record Base := { repo : Repo }.
Record Head := { sha : string }.
Record PullRequest := { statuses_url : string; head : Head; base : Base }.
Record Payload := { pull_request : PullRequest }.
Record Event := { payload : Payload }.
End PR.

(** [./config] is not part of the sources at hand; the handlers read these
    fields of it, and every fact below holds for any value of them. *)
Record Config := {
  PORT : Z;
  accessToken : string;
  webhookPath : string;
  secret : string;
  output : string;
  deployFor : list string
}.

(** ** Effects, environment and world *)

(** The status object sent to the statuses API. *)
Record Status := { state : string; description : string }.

(** The [args] of [client.post]. *)
Record PostArgs := { data : Status; headers : list (string * string) }.

(** What the REST client hands to the callback: [(data, response)]. *)
Record Response := { body : jsval; statusCode : Z }.
Record Reply := { reply_data : jsval; reply_response : Response }.

(** The object [shell.exec] returns; only [code] is read. *)
Record ExecResult := { code : Z }.

(** What the program does to the outside, in the order it does it. *)
Inductive Effect :=
| ConsoleLog (msg : string)
| ConsoleError (msg : string)
| ClientPost (url : string) (args : PostArgs)
| ShellMkdir (opts dir : string)
| ShellExec (cmd : string)
| ShellCd (dir : string).

(** What the outside answers: the reply to the n-th [client.post] and the
    exit code of the n-th [shell.exec] of the process. *)
Record Env := {
  post_reply : nat -> Reply;
  exec_code : nat -> Z
}.

(** The state the handlers read and change: the directories that exist,
    shelljs's working directory, the clock, and how many posts and shell
    commands were issued so far. *)
Record World := {
  dirs : list string;
  pwd : string;
  now : Z;
  posts_made : nat;
  execs_made : nat
}.

(** ** The monad: state, a rejection or exception, and the effects *)

Inductive Completion (A : Type) :=
| Normal (a : A)
| Throw (e : jsval).
Arguments Normal {A} a.
Arguments Throw {A} e.

Record Outcome (A : Type) := {
  completion : Completion A;
  world : World;
  effects : list Effect
}.
Arguments completion {A} _.
Arguments world {A} _.
Arguments effects {A} _.

Definition M (A : Type) : Type := World -> Outcome A.

Definition ret {A} (a : A) : M A :=
  fun w => {| completion := Normal a; world := w; effects := [] |}.

(** [throw e]: a [throw], or awaiting a promise rejected with [e]. *)
Definition throw {A} (e : jsval) : M A :=
  fun w => {| completion := Throw e; world := w; effects := [] |}.

Definition bind {A B} (m : M A) (k : A -> M B) : M B :=
  fun w =>
    let o := m w in
    match completion o with
    | Normal a =>
        let o' := k a (world o) in
        {| completion := completion o'; world := world o';
           effects := effects o ++ effects o' |}
    | Throw e =>
        {| completion := Throw e; world := world o; effects := effects o |}
    end.

(** [try { body } catch (err) { handler }]. *)
Definition tryCatch {A} (body : M A) (handler : jsval -> M A) : M A :=
  fun w =>
    let o := body w in
    match completion o with
    | Normal _ => o
    | Throw e =>
        let o' := handler e (world o) in
        {| completion := completion o'; world := world o';
           effects := effects o ++ effects o' |}
    end.

Declare Scope js_scope.
Delimit Scope js_scope with js.
Notation "x <- m ;; k" := (bind m (fun x => k))
  (at level 100, m at next level, right associativity) : js_scope.
Notation "m ;; k" := (bind m (fun _ => k))
  (at level 100, right associativity) : js_scope.
Open Scope js_scope.

(** ** Primitives *)

Definition emit (e : Effect) : M unit :=
  fun w => {| completion := Normal tt; world := w; effects := [e] |}.

Definition console_log (msg : string) : M unit := emit (ConsoleLog msg).
Definition console_error (msg : string) : M unit := emit (ConsoleError msg).

(** [Date.now()]. *)
Definition date_now : M Z :=
  fun w => {| completion := Normal (now w); world := w; effects := [] |}.

(** Whether [path] exists in world [w].  Paths are compared as written:
    this is [fs.existsSync] for absolute paths in one spelling, as the
    working directories the pipelines build for commit ids are; relative
    paths and other spellings of a path are not resolved. *)
Definition existsSync (path : string) (w : World) : bool :=
  existsb (String.eqb path) (dirs w).

(** [fs.existsSync(path)]. *)
Definition fs_existsSync (path : string) : M bool :=
  fun w => {| completion := Normal (existsSync path w); world := w; effects := [] |}.

(** World updates. *)
Definition add_dirs (ds : list string) (w : World) : World :=
  {| dirs := ds ++ dirs w; pwd := pwd w; now := now w;
     posts_made := posts_made w; execs_made := execs_made w |}.

Definition set_pwd (dir : string) (w : World) : World :=
  {| dirs := dirs w; pwd := dir; now := now w;
     posts_made := posts_made w; execs_made := execs_made w |}.

Definition tick_post (w : World) : World :=
  {| dirs := dirs w; pwd := pwd w; now := now w;
     posts_made := S (posts_made w); execs_made := execs_made w |}.

Definition tick_exec (w : World) : World :=
  {| dirs := dirs w; pwd := pwd w; now := now w;
     posts_made := posts_made w; execs_made := S (execs_made w) |}.

(** [shell.mkdir(opts, dir)]; with [-p] the missing parents are made too. *)
Definition shell_mkdir (opts dir : string) : M unit :=
  fun w =>
    let made := if opts =? "-p" then path_prefixes dir else [dir] in
    {| completion := Normal tt; world := add_dirs made w;
       effects := [ShellMkdir opts dir] |}.

(** [shell.cd(dir)], taken to succeed: [dir] is taken to be a directory. *)
Definition shell_cd (dir : string) : M unit :=
  fun w =>
    {| completion := Normal tt; world := set_pwd dir w;
       effects := [ShellCd dir] |}.

Section Program.

Variable config : Config.
Variable env : Env.

(** [shell.exec(cmd)]: synchronous, never throws; the exit code is the
    environment's.  Commands leave the set of known directories alone. *)
Definition shell_exec (cmd : string) : M ExecResult :=
  fun w =>
    {| completion := Normal {| code := exec_code env (execs_made w) |};
       world := tick_exec w;
       effects := [ShellExec cmd] |}.

(** [client.post(url, args, callback)] up to the callback's arguments.
    Every post is taken to be answered here; posts that fail in transport,
    for which the callback never runs, are the subject of [Net] below. *)
Definition client_post (url : string) (args : PostArgs) : M Reply :=
  fun w =>
    {| completion := Normal (post_reply env (posts_made w));
       world := tick_post w;
       effects := [ClientPost url args] |}.

(** ** The handlers of [src/index.js] *)

(** The URL [updateStatus] posts to, before the access token is added. *)
Definition repoURL (proc repo commit : string) : string :=
  if proc =? "PR" then repo else replace repo "{sha}" commit.

(** [async function updateStatus(proc, repo, status, commit = '')],
    awaited: the promise resolves with [data] when [data] is truthy and is
    rejected, with no reason, otherwise. *)
Definition updateStatus (proc repo : string) (status : Status)
    (commit_arg : option string) : M jsval :=
  let commit := match commit_arg with Some c => c | None => "" end in
  let args := {| data := {| state := state status; description := description status |};
                 headers := [("User-Agent", "request");
                             ("Content-Type", "application/json")] |} in
  r <- client_post (repoURL proc repo commit ++ "?access_token=" ++ accessToken config) args ;;
  if truthy (reply_data r)
  then (console_log "Status updated" ;; ret (reply_data r))
  else (console_error "Something went wrong" ;; throw JUndefined).

(** [`${outputFile}`] for an argument that may have been left out. *)
Definition template_arg (a : option string) : string :=
  match a with Some s => s | None => "undefined" end.

(** [function makeBuild(cloneURL, cwd, outputFile)]. *)
Definition makeBuild (cloneURL cwd : string) (outputFile : option string) : M ExecResult :=
  present <- fs_existsSync cwd ;;
  (if negb present
   then (shell_mkdir "-p" cwd ;;
         shell_exec ("git clone " ++ cloneURL ++ " " ++ cwd) ;;
         shell_cd cwd)
   else (shell_cd cwd ;;
         shell_exec "git pull" ;;
         ret tt)) ;;
  shell_exec "npm install" ;;
  shell_exec ("npm test >> /Users/santhoshraju/Documents/github-node-webhook/"
              ++ template_arg outputFile).

(** [async function buildProcess(repository, outputFile)].  The local
    [result] is the source's variable [code], the object [makeBuild]
    returned. *)
Definition buildProcess (repository : Push.Payload) (outputFile : option string) : M Z :=
  updateStatus "Commit"
    (Push.statuses_url (Push.repository repository))
    {| state := "pending"; description := "Running build & tests" |}
    (Some (Push.id (Push.head_commit repository))) ;;
  let cwd := "/Users/santhoshraju/Documents/github-node-webhook/PRS/"
             ++ Push.id (Push.head_commit repository) in
  result <- makeBuild (Push.clone_url (Push.repository repository)) cwd outputFile ;;
  let state := if (code result =? 1)%Z then "failure" else "success" in
  let description := if (code result =? 1)%Z then "Build & tests failed"
                     else "Build & test case execution success" in
  updateStatus "Commit"
    (Push.statuses_url (Push.repository repository))
    {| state := state; description := description |}
    (Some (Push.id (Push.head_commit repository))) ;;
  ret (code result).

(** [async function buildPRProcess(repository)]. *)
Definition buildPRProcess (repository : PR.Payload) : M unit :=
  updateStatus "PR"
    (PR.statuses_url (PR.pull_request repository))
    {| state := "pending"; description := "Running build & tests" |}
    None ;;
  let cwd := "/Users/santhoshraju/Documents/github-node-webhook/PRS/"
             ++ PR.sha (PR.head (PR.pull_request repository)) in
  result <- makeBuild (PR.clone_url (PR.repo (PR.base (PR.pull_request repository)))) cwd None ;;
  let state := if (code result =? 1)%Z then "failure" else "success" in
  let description := if (code result =? 1)%Z then "Build & tests failed"
                     else "Build & test case execution success" in
  updateStatus "PR"
    (PR.statuses_url (PR.pull_request repository))
    {| state := state; description := description |}
    None ;;
  ret tt.

(** The [try] block of [deployProcess]. *)
Definition deployProcess_try (repository : Push.Payload) : M unit :=
  t <- date_now ;;
  let outputFile := output config ++ string_of_Z t ++ ".txt" in
  shell_exec ("touch " ++ outputFile) ;;
  buildStatus <- buildProcess repository (Some outputFile) ;;
  if (buildStatus =? 0)%Z
  then console_log "build successfull"
  else console_log "build failed".

(** [async function deployProcess(repository)]. *)
Definition deployProcess (repository : Push.Payload) : M unit :=
  tryCatch (deployProcess_try repository)
    (fun err => console_error ("Something went wrong " ++ toString err)).

(** [handler.on('push', (event) => ...)].  The call of [deployProcess] is
    not awaited by the handler; it is run here to its end. *)
Definition on_push (event : Push.Event) : M unit :=
  if (indexOf (deployFor config) (Push.ref (Push.payload event)) >=? 0)%Z
  then (console_log "Deployment process started" ;;
        deployProcess (Push.payload event))
  else ret tt.

(** [handler.on('pull_request', (event) => ...)]: its body is commented
    out. *)
Definition on_pull_request (event : PR.Event) : M unit := ret tt.

End Program.

(** ** Reading an outcome *)

(** The statuses posted, in order. *)
Fixpoint posted (es : list Effect) : list Status :=
  match es with
  | [] => []
  | ClientPost _ args :: es' => data args :: posted es'
  | _ :: es' => posted es'
  end.

(** The shell commands run, in order. *)
Fixpoint executed (es : list Effect) : list string :=
  match es with
  | [] => []
  | ShellExec cmd :: es' => cmd :: executed es'
  | _ :: es' => executed es'
  end.

(** The lines written with [console.log]. *)
Fixpoint logged (es : list Effect) : list string :=
  match es with
  | [] => []
  | ConsoleLog msg :: es' => msg :: logged es'
  | _ :: es' => logged es'
  end.

(** ** Sample inputs *)

Definition sample_config : Config :=
  {| PORT := 7777; accessToken := "t0ken"; webhookPath := "webhook";
     secret := "s3cret"; output := "out/";
     deployFor := ["refs/heads/develop"; "refs/heads/master"] |}.

Definition sample_push (r : string) : Push.Event :=
  {| Push.payload :=
       {| Push.ref := r;
          Push.head_commit := {| Push.id := "abc123" |};
          Push.repository :=
            {| Push.clone_url := "https://example.com/repo.git";
               Push.statuses_url := "https://api.example.com/statuses/{sha}" |} |} |}.

Definition sample_pr : PR.Payload :=
  {| PR.pull_request :=
       {| PR.statuses_url := "https://api.example.com/statuses/abc123";
          PR.head := {| PR.sha := "abc123" |};
          PR.base := {| PR.repo := {| PR.clone_url := "https://example.com/repo.git" |} |} |} |}.

Definition ok_reply : Reply :=
  {| reply_data := JObj "{state: ...}";
     reply_response := {| body := JObj "{state: ...}"; statusCode := 201 |} |}.

Definition empty_reply : Reply :=
  {| reply_data := JStr "";
     reply_response := {| body := JStr ""; statusCode := 502 |} |}.

(** An error response with a body: [data] is truthy all the same. *)
Definition unauthorized_reply : Reply :=
  {| reply_data := JObj "{message: Bad credentials}";
     reply_response := {| body := JObj "{message: Bad credentials}"; statusCode := 401 |} |}.

(** A response whose parsed [data] is [null] while the raw body is not
    empty. *)
Definition null_reply : Reply :=
  {| reply_data := JNull;
     reply_response := {| body := JStr "Bad Gateway"; statusCode := 502 |} |}.

(** Every post gets reply [r]; every command exits with [c]. *)
Definition env_reply (r : Reply) (c : Z) : Env :=
  {| post_reply := fun _ => r; exec_code := fun _ => c |}.

(** Every post is acknowledged; the test command (and every other
    command) exits with [c]. *)
Definition env_exit (c : Z) : Env :=
  {| post_reply := fun _ => ok_reply; exec_code := fun _ => c |}.

(** No post is acknowledged. *)
Definition env_no_ack (c : Z) : Env :=
  {| post_reply := fun _ => empty_reply; exec_code := fun _ => c |}.

(** The pending post is acknowledged, the final one is not. *)
Definition env_final_lost (c : Z) : Env :=
  {| post_reply := fun n => match n with O => ok_reply | _ => empty_reply end;
     exec_code := fun _ => c |}.

Definition fresh_world : World :=
  {| dirs := []; pwd := "/"; now := 1700000000000; posts_made := 0; execs_made := 0 |}.

(** ** Vocabulary of the statements *)

(** The n-th post of the process is acknowledged: the callback's [data]
    is truthy. *)
Definition acked (env : Env) (n : nat) : bool :=
  truthy (reply_data (post_reply env n)).

(** The [args] that [updateStatus] sends for a status. *)
Definition status_args (st : Status) : PostArgs :=
  {| data := {| state := state st; description := description st |};
     headers := [("User-Agent", "request"); ("Content-Type", "application/json")] |}.

Definition pending_status : Status :=
  {| state := "pending"; description := "Running build & tests" |}.

Definition success_status : Status :=
  {| state := "success"; description := "Build & test case execution success" |}.

Definition failure_status : Status :=
  {| state := "failure"; description := "Build & tests failed" |}.

(** The status the two pipelines derive from the exit code [c]. *)
Definition final_status (c : Z) : Status :=
  if (c =? 1)%Z then failure_status else success_status.

(** The working directory of a build of commit [sha]. *)
Definition workdir (sha : string) : string :=
  "/Users/santhoshraju/Documents/github-node-webhook/PRS/" ++ sha.

(** The test command of a build. *)
Definition npm_test (outputFile : option string) : string :=
  "npm test >> /Users/santhoshraju/Documents/github-node-webhook/"
  ++ template_arg outputFile.

(** The URL a commit-mode status of push payload [p] is posted to. *)
Definition commit_status_url (config : Config) (p : Push.Payload) : string :=
  repoURL "Commit" (Push.statuses_url (Push.repository p)) (Push.id (Push.head_commit p))
  ++ "?access_token=" ++ accessToken config.

(** The URL a pull-request status of payload [p] is posted to. *)
Definition pr_status_url (config : Config) (p : PR.Payload) : string :=
  repoURL "PR" (PR.statuses_url (PR.pull_request p)) ""
  ++ "?access_token=" ++ accessToken config.

(** The output file [deployProcess] names when the clock shows [t]. *)
Definition output_file (config : Config) (t : Z) : string :=
  output config ++ string_of_Z t ++ ".txt".

(** [pat] occurs in [s] at offset [length a] when [s = a ++ pat ++ b]; the
    occurrence after [pre] is the first one when none starts earlier. *)
Definition first_occurrence (pat pre post : string) : Prop :=
  forall a b, pre ++ pat ++ post = a ++ pat ++ b -> String.length pre <= String.length a.

(** No dollar sign in a replacement text, as in every hexadecimal hash. *)
Fixpoint dollar_free (s : string) : bool :=
  match s with
  | EmptyString => true
  | String c s' => negb (Ascii.eqb c "$") && dollar_free s'
  end.

(** ** The earlier version of the file

    The first version of [src/index.js] has no [deployProcess]: both
    handlers start their pipeline for every event, [makeBuild] takes no
    output file and [buildProcess] returns nothing.  [updateStatus] is the
    same function in both versions. *)

Module V1.
Section Program.

Variable config : Config.
Variable env : Env.

(** [function makeBuild(cloneURL, cwd)]. *)
Definition makeBuild (cloneURL cwd : string) : M ExecResult :=
  present <- fs_existsSync cwd ;;
  (if negb present
   then (shell_mkdir "-p" cwd ;;
         shell_exec env ("git clone " ++ cloneURL ++ " " ++ cwd) ;;
         shell_cd cwd)
   else (shell_cd cwd ;;
         shell_exec env "git pull" ;;
         ret tt)) ;;
  shell_exec env "npm install" ;;
  shell_exec env "npm test".

(** [async function buildProcess(repository)]. *)
Definition buildProcess (repository : Push.Payload) : M unit :=
  updateStatus config env "Commit"
    (Push.statuses_url (Push.repository repository))
    {| state := "pending"; description := "Running build & tests" |}
    (Some (Push.id (Push.head_commit repository))) ;;
  let cwd := "/Users/santhoshraju/Documents/github-node-webhook/PRS/"
             ++ Push.id (Push.head_commit repository) in
  result <- makeBuild (Push.clone_url (Push.repository repository)) cwd ;;
  let state := if (code result =? 1)%Z then "failure" else "success" in
  let description := if (code result =? 1)%Z then "Build & tests failed"
                     else "Build & test case execution success" in
  updateStatus config env "Commit"
    (Push.statuses_url (Push.repository repository))
    {| state := state; description := description |}
    (Some (Push.id (Push.head_commit repository))) ;;
  ret tt.

(** [async function buildPRProcess(repository)]. *)
Definition buildPRProcess (repository : PR.Payload) : M unit :=
  updateStatus config env "PR"
    (PR.statuses_url (PR.pull_request repository))
    {| state := "pending"; description := "Running build & tests" |}
    None ;;
  let cwd := "/Users/santhoshraju/Documents/github-node-webhook/PRS/"
             ++ PR.sha (PR.head (PR.pull_request repository)) in
  result <- makeBuild (PR.clone_url (PR.repo (PR.base (PR.pull_request repository)))) cwd ;;
  let state := if (code result =? 1)%Z then "failure" else "success" in
  let description := if (code result =? 1)%Z then "Build & tests failed"
                     else "Build & test case execution success" in
  updateStatus config env "PR"
    (PR.statuses_url (PR.pull_request repository))
    {| state := state; description := description |}
    None ;;
  ret tt.

(** [handler.on('push', (event) => { buildProcess(event.payload); })]: the
    promise is neither awaited nor given a rejection handler, so a [Throw]
    here is an unhandled rejection. *)
Definition on_push (event : Push.Event) : M unit :=
  buildProcess (Push.payload event).

(** [handler.on('pull_request', (event) => { buildPRProcess(event.payload); })]. *)
Definition on_pull_request (event : PR.Event) : M unit :=
  buildPRProcess (PR.payload event).

End Program.
End V1.

(** ** Registering the webhook *)

(** The [secret] of the configuration, under a name that the fields of
    the hook's body do not hide. *)
Definition shared_secret (c : Config) : string := secret c.

(** [createWebhook] sends another body than a status and prints a value
    with [console.log], so it has effects of its own. *)
Module Hook.

Record HookConfig := { url : string; content_type : string; secret : string }.

Record HookData := {
  name : string;
  active : bool;
  events : list string;
  config : HookConfig
}.

Record HookArgs := { data : HookData; headers : list (string * string) }.

Inductive HookEffect :=
| Post (target : string) (args : HookArgs)
| Log (msg : string)
| LogValue (v : jsval)
| Error (msg : string).

Record HookOutcome := {
  completion : Completion jsval;
  world : World;
  effects : list HookEffect
}.

(** [async function createWebhook(repo, url)], awaited. *)
Definition createWebhook (cfg : Config) (env : Env) (repo hook_url : string)
  : World -> HookOutcome :=
  fun w =>
    let args :=
      {| data := {| name := webhookPath cfg;
                    active := true;
                    events := ["push"; "pull_request"];
                    config := {| url := hook_url; content_type := "json";
                                 secret := shared_secret cfg |} |};
         headers := [("User-Agent", "request");
                     ("Content-Type", "application/json");
                     ("X-Hub-Signature", "request")] |} in
    let r := post_reply env (posts_made w) in
    if truthy (reply_data r)
    then {| completion := Normal (reply_data r);
            world := tick_post w;
            effects := [Post (repo ++ "?access_token=" ++ accessToken cfg) args;
                        Log "Created webhook";
                        LogValue (reply_data r)] |}
    else {| completion := Throw JUndefined;
            world := tick_post w;
            effects := [Post (repo ++ "?access_token=" ++ accessToken cfg) args;
                        Error ("Error on creating webhook: "
                               ++ toString (body (reply_response r)))] |}.

End Hook.

(** ** More vocabulary *)

(** No slash in a commit id, as in every hexadecimal hash. *)
Fixpoint slash_free (s : string) : bool :=
  match s with
  | EmptyString => true
  | String c s' => negb (Ascii.eqb c "/") && slash_free s'
  end.

(** [pat] occurs somewhere in [s]. *)
Definition occurs (pat s : string) : Prop :=
  exists a b, s = a ++ pat ++ b.

(** The command that fetches the sources into [cwd], by what is there. *)
Definition fetch_command (cloneURL cwd : string) (w : World) : string :=
  if existsSync cwd w then "git pull" else "git clone " ++ cloneURL ++ " " ++ cwd.

(** An absolute path: it starts with a slash. *)
Definition absolute (path : string) : bool :=
  match path with
  | String c _ => Ascii.eqb c "/"
  | EmptyString => false
  end.

(** A commit id as GitHub sends it: a non-empty string of lower-case
    hexadecimal digits. *)
Definition is_hex_digit (c : ascii) : bool :=
  existsb (Ascii.eqb c) (list_ascii_of_string "0123456789abcdef").

Fixpoint all_hex (s : string) : bool :=
  match s with
  | EmptyString => true
  | String c s' => is_hex_digit c && all_hex s'
  end.

Definition is_sha (s : string) : bool := negb (s =? "") && all_hex s.

(** ** Posts that fail in transport

    [client.post] hands [(data, response)] to its callback only when the
    request is answered.  When the transport fails (connection refused,
    name not resolved, connection reset) the REST client emits an
    ['error'] event instead and never calls back.  The source attaches no
    listener for that event, here or anywhere, and the promise of
    [updateStatus] is settled only inside the callback.  Node raises an
    ['error'] event without a listener as an exception of the event loop,
    outside every promise and every [try] block: the pipeline that waits
    for the promise never resumes, and no [catch] of the program sees the
    error.

    The handlers above take every post to be answered.  Below, the same
    handlers run with posts that may fail in transport: [transport n] is
    the error of the n-th post of the process, if it has one. *)

Module Net.

(** How a run ends: normally, in a rejection or exception that a [catch]
    can see, or in an error raised outside the program's reach. *)
Inductive Settlement (A : Type) :=
| Done (a : A)
| Rejected (e : jsval)
| Uncaught (err : jsval).
Arguments Done {A} a.
Arguments Rejected {A} e.
Arguments Uncaught {A} err.

Record Run (A : Type) := {
  settlement : Settlement A;
  after : World;
  trace : list Effect
}.
Arguments settlement {A} _.
Arguments after {A} _.
Arguments trace {A} _.

Definition M (A : Type) : Type := World -> Run A.

Definition ret {A} (a : A) : M A :=
  fun w => {| settlement := Done a; after := w; trace := [] |}.

Definition throw {A} (e : jsval) : M A :=
  fun w => {| settlement := Rejected e; after := w; trace := [] |}.

Definition bind {A B} (m : M A) (k : A -> M B) : M B :=
  fun w =>
    let o := m w in
    match settlement o with
    | Done a =>
        let o' := k a (after o) in
        {| settlement := settlement o'; after := after o';
           trace := trace o ++ trace o' |}
    | Rejected e => {| settlement := Rejected e; after := after o; trace := trace o |}
    | Uncaught err => {| settlement := Uncaught err; after := after o; trace := trace o |}
    end.

(** [try { body } catch (err) { handler }]: only what the body throws or
    what an awaited promise is rejected with reaches the handler. *)
Definition tryCatch {A} (body : M A) (handler : jsval -> M A) : M A :=
  fun w =>
    let o := body w in
    match settlement o with
    | Done _ => o
    | Rejected e =>
        let o' := handler e (after o) in
        {| settlement := settlement o'; after := after o';
           trace := trace o ++ trace o' |}
    | Uncaught _ => o
    end.

(** A computation that makes no post runs as before. *)
Definition lift {A} (m : World -> Outcome A) : M A :=
  fun w =>
    {| settlement := match completion (m w) with
                     | Normal a => Done a
                     | Throw e => Rejected e
                     end;
       after := world (m w);
       trace := effects (m w) |}.

Declare Scope net_scope.
Delimit Scope net_scope with net.
Notation "x <- m ;; k" := (bind m (fun x => k))
  (at level 100, m at next level, right associativity) : net_scope.
Notation "m ;; k" := (bind m (fun _ => k))
  (at level 100, right associativity) : net_scope.
Local Open Scope net_scope.

Section Program.

Variable config : Config.
Variable env : Env.
Variable transport : nat -> option jsval.

(** [client.post(url, args, callback)]: the callback runs with the reply,
    or the transport fails and the callback never runs. *)
Definition client_post (url : string) (args : PostArgs) : M Reply :=
  fun w =>
    {| settlement := match transport (posts_made w) with
                     | None => Done (post_reply env (posts_made w))
                     | Some err => Uncaught err
                     end;
       after := tick_post w;
       trace := [ClientPost url args] |}.

(** [async function updateStatus(proc, repo, status, commit = '')]. *)
Definition updateStatus (proc repo : string) (status : Status)
    (commit_arg : option string) : M jsval :=
  let commit := match commit_arg with Some c => c | None => "" end in
  let args := {| data := {| state := state status; description := description status |};
                 headers := [("User-Agent", "request");
                             ("Content-Type", "application/json")] |} in
  r <- client_post (repoURL proc repo commit ++ "?access_token=" ++ accessToken config) args ;;
  if truthy (reply_data r)
  then (lift (console_log "Status updated") ;; ret (reply_data r))
  else (lift (console_error "Something went wrong") ;; throw JUndefined).

(** [function makeBuild(cloneURL, cwd, outputFile)] makes no post. *)
Definition makeBuild (cloneURL cwd : string) (outputFile : option string) : M ExecResult :=
  lift (makeBuild env cloneURL cwd outputFile).

(** [async function buildProcess(repository, outputFile)]. *)
Definition buildProcess (repository : Push.Payload) (outputFile : option string) : M Z :=
  updateStatus "Commit"
    (Push.statuses_url (Push.repository repository))
    {| state := "pending"; description := "Running build & tests" |}
    (Some (Push.id (Push.head_commit repository))) ;;
  let cwd := "/Users/santhoshraju/Documents/github-node-webhook/PRS/"
             ++ Push.id (Push.head_commit repository) in
  result <- makeBuild (Push.clone_url (Push.repository repository)) cwd outputFile ;;
  let state := if (code result =? 1)%Z then "failure" else "success" in
  let description := if (code result =? 1)%Z then "Build & tests failed"
                     else "Build & test case execution success" in
  updateStatus "Commit"
    (Push.statuses_url (Push.repository repository))
    {| state := state; description := description |}
    (Some (Push.id (Push.head_commit repository))) ;;
  ret (code result).

(** The [try] block of [deployProcess]. *)
Definition deployProcess_try (repository : Push.Payload) : M unit :=
  t <- lift date_now ;;
  let outputFile := output config ++ string_of_Z t ++ ".txt" in
  lift (shell_exec env ("touch " ++ outputFile)) ;;
  buildStatus <- buildProcess repository (Some outputFile) ;;
  if (buildStatus =? 0)%Z
  then lift (console_log "build successfull")
  else lift (console_log "build failed").

(** [async function deployProcess(repository)]. *)
Definition deployProcess (repository : Push.Payload) : M unit :=
  tryCatch (deployProcess_try repository)
    (fun err => lift (console_error ("Something went wrong " ++ toString err))).

(** [handler.on('push', (event) => ...)]. *)
Definition on_push (event : Push.Event) : M unit :=
  if (indexOf (deployFor config) (Push.ref (Push.payload event)) >=? 0)%Z
  then (lift (console_log "Deployment process started") ;;
        deployProcess (Push.payload event))
  else ret tt.

End Program.
End Net.




(** * Properties *)

(** ** The model on small inputs *)

Example path_prefixes_ex :
  path_prefixes "/srv/PRS/abc" = ["/srv"; "/srv/PRS"; "/srv/PRS/abc"].
Proof. reflexivity. Qed.

Example replace_ex :
  replace "https://api/statuses/{sha}" "{sha}" "abc123" = "https://api/statuses/abc123".
Proof. reflexivity. Qed.

Example indexOf_ex : indexOf ["a"; "b"; "c"] "c" = 2%Z /\ indexOf ["a"] "z" = (-1)%Z.
Proof. split; reflexivity. Qed.

Example string_of_Z_ex : string_of_Z 1700000000000 = "1700000000000".
Proof. reflexivity. Qed.

Example on_push_ex :
  effects (on_push sample_config (env_exit 0) (sample_push "refs/heads/develop") fresh_world)
  = [ConsoleLog "Deployment process started";
     ShellExec "touch out/1700000000000.txt";
     ClientPost "https://api.example.com/statuses/abc123?access_token=t0ken"
       (status_args pending_status);
     ConsoleLog "Status updated";
     ShellMkdir "-p" (workdir "abc123");
     ShellExec ("git clone https://example.com/repo.git " ++ workdir "abc123");
     ShellCd (workdir "abc123");
     ShellExec "npm install";
     ShellExec (npm_test (Some "out/1700000000000.txt"));
     ClientPost "https://api.example.com/statuses/abc123?access_token=t0ken"
       (status_args success_status);
     ConsoleLog "Status updated";
     ConsoleLog "build successfull"].
Proof. reflexivity. Qed.

(** ** Strings *)

Lemma stripPrefix_app (p r : string) : stripPrefix p (p ++ r) = Some r.
Proof.
  induction p as [|a p IH]; simpl; [reflexivity|].
  now rewrite Ascii.eqb_refl.
Qed.

Lemma stripPrefix_Some (p s r : string) : stripPrefix p s = Some r -> s = p ++ r.
Proof.
  revert s; induction p as [|a p IH]; intros s H; simpl in *.
  - now inversion H.
  - destruct s as [|b s]; [discriminate|].
    destruct (Ascii.eqb a b) eqn:E; [|discriminate].
    apply Ascii.eqb_eq in E; subst b. f_equal. now apply IH.
Qed.

Lemma splitFirst_here (pat s rest : string) :
  stripPrefix pat s = Some rest -> splitFirst pat s = Some (EmptyString, rest).
Proof. intros H. destruct s; simpl; now rewrite H. Qed.

Lemma splitFirst_first (pat pre post : string) :
  first_occurrence pat pre post ->
  splitFirst pat (pre ++ pat ++ post) = Some (pre, post).
Proof.
  induction pre as [|c pre IH]; intros Hfirst.
  - change (EmptyString ++ pat ++ post) with (pat ++ post).
    apply splitFirst_here, stripPrefix_app.
  - change (String c pre ++ pat ++ post) with (String c (pre ++ pat ++ post)).
    cbn [splitFirst].
    destruct (stripPrefix pat (String c (pre ++ pat ++ post))) as [rest|] eqn:E.
    + apply stripPrefix_Some in E.
      specialize (Hfirst EmptyString rest E). simpl in Hfirst. lia.
    + rewrite IH; [reflexivity|].
      intros a b Hab. specialize (Hfirst (String c a) b).
      simpl in Hfirst. rewrite Hab in Hfirst. specialize (Hfirst eq_refl). lia.
Qed.

Lemma getSubstitution_dollar_free (matched before after repl : string) :
  dollar_free repl = true -> getSubstitution matched before after repl = repl.
Proof.
  induction repl as [|c r IH]; simpl; [reflexivity|].
  intros H. apply andb_true_iff in H as [Hc Hr].
  apply negb_true_iff in Hc. rewrite Hc. now rewrite IH.
Qed.

Lemma append_nil_r (s : string) : s ++ "" = s.
Proof. induction s; simpl; congruence. Qed.

Lemma replace_first (pat pre post repl : string) :
  first_occurrence pat pre post -> dollar_free repl = true ->
  replace (pre ++ pat ++ post) pat repl = pre ++ repl ++ post.
Proof.
  intros Hf Hd. unfold replace.
  now rewrite (splitFirst_first _ _ _ Hf), getSubstitution_dollar_free.
Qed.

Lemma indexOf_lower (arr : list string) (x : string) : (-1 <= indexOf arr x)%Z.
Proof.
  induction arr as [|y arr IH]; simpl; [lia|].
  destruct (y =? x); [lia|].
  destruct (indexOf arr x <? 0)%Z eqn:E; [lia|]. apply Z.ltb_ge in E. lia.
Qed.

Lemma indexOf_found (arr : list string) (x : string) :
  (indexOf arr x >=? 0)%Z = true <-> In x arr.
Proof.
  induction arr as [|y arr IH]; simpl.
  - split; [discriminate|tauto].
  - destruct (y =? x) eqn:E.
    + apply String.eqb_eq in E. split; auto.
    + apply String.eqb_neq in E.
      destruct (indexOf arr x <? 0)%Z eqn:L.
      * split; [discriminate|]. intros [H|H]; [contradiction|].
        apply IH in H. apply Z.ltb_lt in L. apply Z.geb_le in H. lia.
      * apply Z.ltb_ge in L. split.
        -- intros _. right. apply IH. apply Z.geb_le. lia.
        -- intros _. apply Z.geb_le. lia.
Qed.

Lemma append_assoc (a b c : string) : (a ++ b) ++ c = a ++ b ++ c.
Proof. induction a; simpl; congruence. Qed.

Lemma append_empty (a b : string) : a ++ b = "" -> a = "" /\ b = "".
Proof. destruct a; simpl; [auto|discriminate]. Qed.

(** ** Paths *)

Lemma path_prefixes_from_self (rest acc : string) :
  acc ++ rest <> "" -> In (acc ++ rest) (path_prefixes_from acc rest).
Proof.
  revert acc; induction rest as [|c rest IH]; intros acc Hne; simpl.
  - rewrite append_nil_r in *.
    apply String.eqb_neq in Hne. rewrite Hne. now left.
  - assert (Hstep : In (acc ++ String c rest)
                       (path_prefixes_from (acc ++ String c "") rest)).
    { replace (acc ++ String c rest) with ((acc ++ String c "") ++ rest)
        by (rewrite append_assoc; reflexivity).
      apply IH. intros E. apply append_empty in E as [E _].
      apply append_empty in E as [_ E]. discriminate. }
    destruct (Ascii.eqb c "/" && negb (acc =? "")); [right|]; exact Hstep.
Qed.

Lemma path_prefixes_self (path : string) :
  path <> "" -> In path (path_prefixes path).
Proof. intros H. apply (path_prefixes_from_self path ""). exact H. Qed.

Lemma existsSync_In (path : string) (w : World) :
  existsSync path w = true <-> In path (dirs w).
Proof.
  unfold existsSync. generalize (dirs w) as l. intros l. rename path into x.
  rewrite existsb_exists. split.
  - intros [y [Hy E]]. apply String.eqb_eq in E. now subst.
  - intros H. exists x. split; [exact H|apply String.eqb_refl].
Qed.

(** ** Run equations of the handlers *)

Section Runs.

Variable config : Config.
Variable env : Env.

Lemma updateStatus_acked (proc repo : string) (st : Status) (c : option string) (w : World) :
  acked env (posts_made w) = true ->
  updateStatus config env proc repo st c w =
  {| completion := Normal (reply_data (post_reply env (posts_made w)));
     world := tick_post w;
     effects := [ClientPost (repoURL proc repo (match c with Some x => x | None => "" end)
                             ++ "?access_token=" ++ accessToken config)
                            (status_args st);
                 ConsoleLog "Status updated"] |}.
Proof.
  unfold acked. intros H. unfold updateStatus, bind, client_post. simpl.
  rewrite H. reflexivity.
Qed.

Lemma updateStatus_rejected (proc repo : string) (st : Status) (c : option string) (w : World) :
  acked env (posts_made w) = false ->
  updateStatus config env proc repo st c w =
  {| completion := Throw JUndefined;
     world := tick_post w;
     effects := [ClientPost (repoURL proc repo (match c with Some x => x | None => "" end)
                             ++ "?access_token=" ++ accessToken config)
                            (status_args st);
                 ConsoleError "Something went wrong"] |}.
Proof.
  unfold acked. intros H. unfold updateStatus, bind, client_post. simpl.
  rewrite H. reflexivity.
Qed.

Lemma makeBuild_absent (cloneURL cwd : string) (outputFile : option string) (w : World) :
  existsSync cwd w = false ->
  makeBuild env cloneURL cwd outputFile w =
  {| completion := Normal {| code := exec_code env (2 + execs_made w) |};
     world := tick_exec (tick_exec (set_pwd cwd (tick_exec (add_dirs (path_prefixes cwd) w))));
     effects := [ShellMkdir "-p" cwd;
                 ShellExec ("git clone " ++ cloneURL ++ " " ++ cwd);
                 ShellCd cwd;
                 ShellExec "npm install";
                 ShellExec (npm_test outputFile)] |}.
Proof.
  intros H. unfold makeBuild, bind, fs_existsSync. simpl. rewrite H. reflexivity.
Qed.

Lemma makeBuild_present (cloneURL cwd : string) (outputFile : option string) (w : World) :
  existsSync cwd w = true ->
  makeBuild env cloneURL cwd outputFile w =
  {| completion := Normal {| code := exec_code env (2 + execs_made w) |};
     world := tick_exec (tick_exec (tick_exec (set_pwd cwd w)));
     effects := [ShellCd cwd;
                 ShellExec "git pull";
                 ShellExec "npm install";
                 ShellExec (npm_test outputFile)] |}.
Proof.
  intros H. unfold makeBuild, bind, fs_existsSync. simpl. rewrite H. reflexivity.
Qed.

(** What every build has in common, whether it clones or pulls. *)
Lemma makeBuild_summary (cloneURL cwd : string) (outputFile : option string) (w : World) :
  let o := makeBuild env cloneURL cwd outputFile w in
  completion o = Normal {| code := exec_code env (2 + execs_made w) |}
  /\ posts_made (world o) = posts_made w
  /\ execs_made (world o) = 3 + execs_made w
  /\ posted (effects o) = []
  /\ logged (effects o) = []
  /\ (exists fetch, executed (effects o) = [fetch; "npm install"; npm_test outputFile]).
Proof.
  destruct (existsSync cwd w) eqn:E.
  - rewrite (makeBuild_present _ _ _ _ E). simpl. repeat split; eauto.
  - rewrite (makeBuild_absent _ _ _ _ E). simpl. repeat split; eauto.
Qed.

Lemma final_status_eq (c : Z) :
  {| state := if (c =? 1)%Z then "failure" else "success";
     description := if (c =? 1)%Z then "Build & tests failed"
                    else "Build & test case execution success" |}
  = final_status c.
Proof. unfold final_status. now destruct (c =? 1)%Z. Qed.

(** The commit pipeline once its pending post is acknowledged. *)
Lemma buildProcess_run (p : Push.Payload) (outputFile : option string) (w : World) :
  acked env (posts_made w) = true ->
  let b := makeBuild env (Push.clone_url (Push.repository p))
             (workdir (Push.id (Push.head_commit p))) outputFile (tick_post w) in
  let c := exec_code env (2 + execs_made w) in
  buildProcess config env p outputFile w =
  {| completion := if acked env (S (posts_made w)) then Normal c else Throw JUndefined;
     world := tick_post (world b);
     effects :=
       [ClientPost (commit_status_url config p) (status_args pending_status);
        ConsoleLog "Status updated"]
       ++ effects b
       ++ [ClientPost (commit_status_url config p) (status_args (final_status c));
           if acked env (S (posts_made w)) then ConsoleLog "Status updated"
           else ConsoleError "Something went wrong"] |}.
Proof.
  intros Hack. cbv zeta.
  pose proof (makeBuild_summary (Push.clone_url (Push.repository p))
                (workdir (Push.id (Push.head_commit p))) outputFile (tick_post w)) as Hb.
  cbv zeta in Hb. unfold buildProcess, bind. unfold workdir in *.
  rewrite updateStatus_acked by exact Hack.
  cbn [completion world effects].
  set (b := makeBuild env _ _ _ (tick_post w)) in *. clearbody b.
  destruct Hb as (Hc & Hposts & _). simpl in Hc, Hposts.
  rewrite Hc. cbn [completion world effects code].
  rewrite final_status_eq.
  destruct (acked env (S (posts_made w))) eqn:Hfin.
  - rewrite updateStatus_acked by (rewrite Hposts; exact Hfin).
    cbn [completion world effects ret]. rewrite app_nil_r. reflexivity.
  - rewrite updateStatus_rejected by (rewrite Hposts; exact Hfin).
    reflexivity.
Qed.

(** The commit pipeline when its pending post is rejected. *)
Lemma buildProcess_rejected (p : Push.Payload) (outputFile : option string) (w : World) :
  acked env (posts_made w) = false ->
  buildProcess config env p outputFile w =
  {| completion := Throw JUndefined;
     world := tick_post w;
     effects := [ClientPost (commit_status_url config p) (status_args pending_status);
                 ConsoleError "Something went wrong"] |}.
Proof.
  intros Hack. unfold buildProcess. unfold bind at 1.
  rewrite updateStatus_rejected by exact Hack. reflexivity.
Qed.

(** The pull-request pipeline once its pending post is acknowledged. *)
Lemma buildPRProcess_run (p : PR.Payload) (w : World) :
  acked env (posts_made w) = true ->
  let b := makeBuild env (PR.clone_url (PR.repo (PR.base (PR.pull_request p))))
             (workdir (PR.sha (PR.head (PR.pull_request p)))) None (tick_post w) in
  let c := exec_code env (2 + execs_made w) in
  buildPRProcess config env p w =
  {| completion := if acked env (S (posts_made w)) then Normal tt else Throw JUndefined;
     world := tick_post (world b);
     effects :=
       [ClientPost (pr_status_url config p) (status_args pending_status);
        ConsoleLog "Status updated"]
       ++ effects b
       ++ [ClientPost (pr_status_url config p) (status_args (final_status c));
           if acked env (S (posts_made w)) then ConsoleLog "Status updated"
           else ConsoleError "Something went wrong"] |}.
Proof.
  intros Hack. cbv zeta.
  pose proof (makeBuild_summary (PR.clone_url (PR.repo (PR.base (PR.pull_request p))))
                (workdir (PR.sha (PR.head (PR.pull_request p)))) None (tick_post w)) as Hb.
  cbv zeta in Hb. unfold buildPRProcess, bind. unfold workdir in *.
  rewrite updateStatus_acked by exact Hack.
  cbn [completion world effects].
  set (b := makeBuild env _ _ _ (tick_post w)) in *. clearbody b.
  destruct Hb as (Hc & Hposts & _). simpl in Hc, Hposts.
  rewrite Hc. cbn [completion world effects code].
  rewrite final_status_eq.
  destruct (acked env (S (posts_made w))) eqn:Hfin.
  - rewrite updateStatus_acked by (rewrite Hposts; exact Hfin).
    cbn [completion world effects ret]. rewrite app_nil_r. reflexivity.
  - rewrite updateStatus_rejected by (rewrite Hposts; exact Hfin).
    reflexivity.
Qed.

Lemma buildPRProcess_rejected (p : PR.Payload) (w : World) :
  acked env (posts_made w) = false ->
  buildPRProcess config env p w =
  {| completion := Throw JUndefined;
     world := tick_post w;
     effects := [ClientPost (pr_status_url config p) (status_args pending_status);
                 ConsoleError "Something went wrong"] |}.
Proof.
  intros Hack. unfold buildPRProcess. unfold bind at 1.
  rewrite updateStatus_rejected by exact Hack. reflexivity.
Qed.

(** The [try] block of [deployProcess] in terms of the pipeline it awaits. *)
Lemma deployProcess_try_run (p : Push.Payload) (w : World) :
  let o := buildProcess config env p (Some (output_file config (now w))) (tick_exec w) in
  deployProcess_try config env p w =
  {| completion := match completion o with
                   | Normal _ => Normal tt
                   | Throw e => Throw e
                   end;
     world := world o;
     effects :=
       ShellExec ("touch " ++ output_file config (now w))
       :: effects o
       ++ match completion o with
          | Normal c => [ConsoleLog (if (c =? 0)%Z then "build successfull" else "build failed")]
          | Throw _ => []
          end |}.
Proof.
  intros o. unfold output_file in o. unfold deployProcess_try, bind, output_file.
  cbn [date_now shell_exec completion world effects].
  set (o' := buildProcess _ _ _ _ _). change o' with o. clearbody o. clear o'.
  destruct (completion o) as [c|e]; cbn [completion world effects app].
  - destruct (c =? 0)%Z; reflexivity.
  - rewrite app_nil_r. reflexivity.
Qed.

(** [deployProcess] in terms of the pipeline it awaits. *)
Lemma deployProcess_run (p : Push.Payload) (w : World) :
  let o := buildProcess config env p (Some (output_file config (now w))) (tick_exec w) in
  deployProcess config env p w =
  {| completion := Normal tt;
     world := world o;
     effects :=
       ShellExec ("touch " ++ output_file config (now w))
       :: effects o
       ++ [match completion o with
           | Normal c => ConsoleLog (if (c =? 0)%Z then "build successfull" else "build failed")
           | Throw e => ConsoleError ("Something went wrong " ++ toString e)
           end] |}.
Proof.
  intros o. unfold deployProcess, tryCatch.
  pose proof (deployProcess_try_run p w) as Ht. cbv zeta in Ht. fold o in Ht.
  rewrite Ht. clearbody o.
  destruct (completion o) as [c|e]; cbn [completion world effects console_error emit].
  - reflexivity.
  - rewrite app_nil_r. reflexivity.
Qed.

End Runs.

(** ** Reading effects *)

Lemma posted_app (a b : list Effect) : posted (a ++ b) = (posted a ++ posted b)%list.
Proof.
  induction a as [|e a IH]; [reflexivity|].
  destruct e; simpl; rewrite IH; reflexivity.
Qed.

Lemma executed_app (a b : list Effect) : executed (a ++ b) = (executed a ++ executed b)%list.
Proof.
  induction a as [|e a IH]; [reflexivity|].
  destruct e; simpl; rewrite IH; reflexivity.
Qed.

Lemma logged_app (a b : list Effect) : logged (a ++ b) = (logged a ++ logged b)%list.
Proof.
  induction a as [|e a IH]; [reflexivity|].
  destruct e; simpl; rewrite IH; reflexivity.
Qed.

Lemma status_args_data (st : Status) : data (status_args st) = st.
Proof. now destruct st. Qed.

Lemma final_status_cases (c : Z) :
  final_status c = success_status \/ final_status c = failure_status.
Proof. unfold final_status. destruct (c =? 1)%Z; auto. Qed.

(** Push the three readings through a list of effects built with [::]
    and [++]. *)
Ltac read_effects :=
  repeat (cbn [posted executed logged app];
          rewrite ?posted_app, ?executed_app, ?logged_app, ?status_args_data).

(** A string is not among finitely many other strings. *)
Ltac absent :=
  let H := fresh "H" in
  intros H; simpl in H;
  repeat (destruct H as [H|H]; [discriminate H|]); contradiction.

(** Try and catch: a caught exception is handed to the handler. *)
Lemma tryCatch_caught {A} (body : M A) (handler : jsval -> M A) (w : World) (e : jsval) :
  completion (body w) = Throw e ->
  tryCatch body handler w =
  {| completion := completion (handler e (world (body w)));
     world := world (handler e (world (body w)));
     effects := effects (body w) ++ effects (handler e (world (body w))) |}.
Proof. intros H. unfold tryCatch. now rewrite H. Qed.

(** What a deploy shows when both posts are acknowledged. *)
Lemma deployProcess_acked (config : Config) (env : Env) (p : Push.Payload) (w : World) :
  acked env (posts_made w) = true ->
  acked env (S (posts_made w)) = true ->
  let c := exec_code env (3 + execs_made w) in
  let out := effects (deployProcess config env p w) in
  posted out = [pending_status; final_status c]
  /\ logged out = ["Status updated"; "Status updated";
                   if (c =? 0)%Z then "build successfull" else "build failed"]
  /\ exists fetch,
       executed out = ["touch " ++ output_file config (now w); fetch; "npm install";
                       npm_test (Some (output_file config (now w)))].
Proof.
  intros H1 H2 c out. subst out.
  pose proof (deployProcess_run config env p w) as Hd. cbv zeta in Hd. rewrite Hd. clear Hd.
  pose proof (buildProcess_run config env p (Some (output_file config (now w))) (tick_exec w) H1)
    as Hb. cbv zeta in Hb. rewrite Hb. clear Hb.
  change (posts_made (tick_exec w)) with (posts_made w). rewrite H2.
  change (exec_code env (2 + execs_made (tick_exec w))) with c.
  cbn [completion world effects].
  destruct (makeBuild_summary env (Push.clone_url (Push.repository p))
              (workdir (Push.id (Push.head_commit p))) (Some (output_file config (now w)))
              (tick_post (tick_exec w))) as (_ & _ & _ & Hp & Hl & fetch & He).
  set (b := makeBuild env _ _ _ _) in *. clearbody b.
  repeat split; [| |exists fetch]; read_effects; rewrite ?Hp, ?Hl, ?He; reflexivity.
Qed.

(** * The statements of the specification *)

(** ** Exit code to status *)

(** C1.  The specification maps exit code 0 to [success] and every other
    exit code to [failure].  The two pipelines test [code.code === 1]:
    they report 0 as [success] and 1 as [failure], but report exit code
    127 as [success], with the description of a passed build, although
    [deployProcess] treats the same exit code as a failed build. *)
Theorem exit_code_127_reported_success :
  let commit c := posted (effects (buildProcess sample_config (env_exit c)
                     (Push.payload (sample_push "refs/heads/develop")) None fresh_world)) in
  let pr c := posted (effects (buildPRProcess sample_config (env_exit c) sample_pr fresh_world)) in
  commit 0%Z = [pending_status; success_status]
  /\ commit 1%Z = [pending_status; failure_status]
  /\ commit 127%Z = [pending_status; success_status]
  /\ pr 0%Z = [pending_status; success_status]
  /\ pr 1%Z = [pending_status; failure_status]
  /\ pr 127%Z = [pending_status; success_status]
  /\ logged (effects (deployProcess sample_config (env_exit 127)
               (Push.payload (sample_push "refs/heads/develop")) fresh_world))
     = ["Status updated"; "Status updated"; "build failed"].
Proof. cbv zeta. repeat split; vm_compute; reflexivity. Qed.

(** ** Pending, then the final status *)

(** C2, as stated, fails: when the pending post is rejected the pipeline
    stops there, so the reporter is called once and no final status
    follows, in commit mode and in pull-request mode alike. *)
Lemma pending_rejected_single_report :
  acked (env_no_ack 0) (posts_made fresh_world) = false
  /\ posted (effects (buildProcess sample_config (env_no_ack 0)
               (Push.payload (sample_push "refs/heads/develop")) None fresh_world))
     = [pending_status]
  /\ posted (effects (buildPRProcess sample_config (env_no_ack 0) sample_pr fresh_world))
     = [pending_status].
Proof. repeat split; vm_compute; reflexivity. Qed.

(** C2, amended.  In a pipeline execution whose pending post is
    acknowledged, in either mode, the effects split into three parts: the
    first posts [pending] and runs no command, the second is the build
    (it runs the test command and posts nothing), the third posts the one
    final status, [success] or [failure], and runs no command.  So the
    reporter is called exactly twice, pending before the build and the
    final status after it. *)
Theorem pipeline_reports_pending_then_final (config : Config) (env : Env) (w : World) :
  acked env (posts_made w) = true ->
  (forall (p : Push.Payload) (outputFile : option string),
      exists before build after final,
        effects (buildProcess config env p outputFile w) = (before ++ build ++ after)%list
        /\ posted before = [pending_status] /\ executed before = []
        /\ posted build = [] /\ In (npm_test outputFile) (executed build)
        /\ posted after = [final] /\ executed after = []
        /\ (final = success_status \/ final = failure_status)
        /\ posted (effects (buildProcess config env p outputFile w)) = [pending_status; final])
  /\ (forall p : PR.Payload,
      exists before build after final,
        effects (buildPRProcess config env p w) = (before ++ build ++ after)%list
        /\ posted before = [pending_status] /\ executed before = []
        /\ posted build = [] /\ In (npm_test None) (executed build)
        /\ posted after = [final] /\ executed after = []
        /\ (final = success_status \/ final = failure_status)
        /\ posted (effects (buildPRProcess config env p w)) = [pending_status; final]).
Proof.
  intros Hack. split.
  - intros p outputFile.
    pose proof (buildProcess_run config env p outputFile w Hack) as Hb. cbv zeta in Hb.
    destruct (makeBuild_summary env (Push.clone_url (Push.repository p))
                (workdir (Push.id (Push.head_commit p))) outputFile (tick_post w))
      as (_ & _ & _ & Hp & _ & fetch & He).
    set (b := makeBuild env _ _ _ _) in *. clearbody b.
    eexists _, (effects b), _, (final_status (exec_code env (2 + execs_made w))).
    rewrite Hb. cbn [effects]. split; [reflexivity|].
    rewrite He. read_effects. rewrite Hp.
    repeat split; try reflexivity.
    + simpl. auto.
    + destruct (acked env (S (posts_made w))); reflexivity.
    + destruct (acked env (S (posts_made w))); reflexivity.
    + apply final_status_cases.
    + destruct (acked env (S (posts_made w))); reflexivity.
  - intros p.
    pose proof (buildPRProcess_run config env p w Hack) as Hb. cbv zeta in Hb.
    destruct (makeBuild_summary env (PR.clone_url (PR.repo (PR.base (PR.pull_request p))))
                (workdir (PR.sha (PR.head (PR.pull_request p)))) None (tick_post w))
      as (_ & _ & _ & Hp & _ & fetch & He).
    set (b := makeBuild env _ _ _ _) in *. clearbody b.
    eexists _, (effects b), _, (final_status (exec_code env (2 + execs_made w))).
    rewrite Hb. cbn [effects]. split; [reflexivity|].
    rewrite He. read_effects. rewrite Hp.
    repeat split; try reflexivity.
    + simpl. auto.
    + destruct (acked env (S (posts_made w))); reflexivity.
    + destruct (acked env (S (posts_made w))); reflexivity.
    + apply final_status_cases.
    + destruct (acked env (S (posts_made w))); reflexivity.
Qed.

(** An acknowledged run with exit code 1: pending, then one final status. *)
Lemma pipeline_reports_pending_then_final_witness :
  acked (env_exit 1) (posts_made fresh_world) = true
  /\ exists final,
       posted (effects (buildProcess sample_config (env_exit 1)
                 (Push.payload (sample_push "refs/heads/develop")) None fresh_world))
       = [pending_status; final]
       /\ (final = success_status \/ final = failure_status).
Proof.
  split; [reflexivity|].
  destruct (pipeline_reports_pending_then_final sample_config (env_exit 1) fresh_world eq_refl)
    as [Hcommit _].
  destruct (Hcommit (Push.payload (sample_push "refs/heads/develop")) None)
    as (before & build & after & final & _ & _ & _ & _ & _ & _ & _ & Hfinal & Hposted).
  exists final. split; assumption.
Defined.

(** ** The deploy gate *)

(** Whatever the replies, the commit pipeline begins by posting the
    pending status of its commit. *)
Lemma buildProcess_starts_pending (config : Config) (env : Env) (p : Push.Payload)
    (outputFile : option string) (w : World) :
  exists rest,
    effects (buildProcess config env p outputFile w) =
    ClientPost (commit_status_url config p) (status_args pending_status) :: rest.
Proof.
  destruct (acked env (posts_made w)) eqn:Hack.
  - pose proof (buildProcess_run config env p outputFile w Hack) as Hb. cbv zeta in Hb.
    rewrite Hb. cbn [effects app]. eauto.
  - rewrite (buildProcess_rejected config env p outputFile w Hack). cbn [effects]. eauto.
Qed.

(** C3.  The push handler starts the pipeline exactly when the pushed ref
    is in [config.deployFor]: then it announces the deploy, creates the
    output file and posts the pending status of the pushed commit;
    otherwise nothing happens at all (no effect, the world unchanged).  A
    status is posted, and a command run, only for a ref in the set. *)
Theorem push_builds_iff_ref_in_deploy_set (config : Config) (env : Env)
    (event : Push.Event) (w : World) :
  let p := Push.payload event in
  let o := on_push config env event w in
  (In (Push.ref p) (deployFor config) <-> In pending_status (posted (effects o)))
  /\ (In (Push.ref p) (deployFor config) <-> executed (effects o) <> [])
  /\ (In (Push.ref p) (deployFor config) ->
      exists rest,
        effects o =
        ConsoleLog "Deployment process started"
        :: ShellExec ("touch " ++ output_file config (now w))
        :: ClientPost (commit_status_url config p) (status_args pending_status)
        :: rest)
  /\ (~ In (Push.ref p) (deployFor config) ->
      o = {| completion := Normal tt; world := w; effects := [] |}).
Proof.
  intros p o.
  assert (Hin : In (Push.ref p) (deployFor config) ->
                exists rest,
                  effects o =
                  ConsoleLog "Deployment process started"
                  :: ShellExec ("touch " ++ output_file config (now w))
                  :: ClientPost (commit_status_url config p) (status_args pending_status)
                  :: rest).
  { intros H. apply indexOf_found in H. subst o. unfold on_push. fold p. rewrite H.
    unfold bind. cbn [console_log emit completion world effects app].
    pose proof (deployProcess_run config env p w) as Hd. cbv zeta in Hd. rewrite Hd.
    cbn [effects].
    destruct (buildProcess_starts_pending config env p
                (Some (output_file config (now w))) (tick_exec w)) as [rest Hr].
    rewrite Hr. cbn [app]. eauto. }
  assert (Hout : ~ In (Push.ref p) (deployFor config) ->
                 o = {| completion := Normal tt; world := w; effects := [] |}).
  { intros H. subst o. unfold on_push. fold p.
    destruct (indexOf (deployFor config) (Push.ref p) >=? 0)%Z eqn:E; [|reflexivity].
    apply indexOf_found in E. contradiction. }
  assert (Hdec : In (Push.ref p) (deployFor config) \/ ~ In (Push.ref p) (deployFor config)).
  { destruct (indexOf (deployFor config) (Push.ref p) >=? 0)%Z eqn:E.
    - left. now apply indexOf_found.
    - right. intros H. apply indexOf_found in H. congruence. }
  repeat split; auto.
  - intros H. destruct (Hin H) as [rest Hr]. rewrite Hr. simpl. left. reflexivity.
  - intros H. destruct Hdec as [Hd|Hd]; [exact Hd|].
    rewrite (Hout Hd) in H. simpl in H. contradiction.
  - intros H. destruct (Hin H) as [rest Hr]. rewrite Hr. simpl. discriminate.
  - intros H. destruct Hdec as [Hd|Hd]; [exact Hd|].
    rewrite (Hout Hd) in H. simpl in H. congruence.
Qed.

(** A ref inside the deploy set and a ref outside it. *)
Lemma push_builds_iff_ref_in_deploy_set_witness :
  (In "refs/heads/develop" (deployFor sample_config)
   /\ exists rest,
        effects (on_push sample_config (env_exit 0) (sample_push "refs/heads/develop") fresh_world)
        = ConsoleLog "Deployment process started"
          :: ShellExec "touch out/1700000000000.txt"
          :: ClientPost "https://api.example.com/statuses/abc123?access_token=t0ken"
               (status_args pending_status)
          :: rest)
  /\ (~ In "refs/heads/feature-x" (deployFor sample_config)
      /\ on_push sample_config (env_exit 0) (sample_push "refs/heads/feature-x") fresh_world
         = {| completion := Normal tt; world := fresh_world; effects := [] |}).
Proof.
  assert (Hin : In "refs/heads/develop" (deployFor sample_config)) by (simpl; auto).
  assert (Hout : ~ In "refs/heads/feature-x" (deployFor sample_config)).
  { simpl. intros [H|[H|[]]]; discriminate. }
  split; split; try assumption.
  - exact (proj1 (proj2 (proj2 (push_builds_iff_ref_in_deploy_set sample_config (env_exit 0)
                                  (sample_push "refs/heads/develop") fresh_world))) Hin).
  - exact (proj2 (proj2 (proj2 (push_builds_iff_ref_in_deploy_set sample_config (env_exit 0)
                                  (sample_push "refs/heads/feature-x") fresh_world))) Hout).
Defined.

(** ** A rejected pending post *)

(** C4, as stated, fails: with the pending post rejected no command of
    the build is run, and [deployProcess] logs neither outcome; the only
    command is the [touch] that precedes the pipeline. *)
Lemma pending_rejected_build_skipped :
  let p := Push.payload (sample_push "refs/heads/develop") in
  acked (env_no_ack 0) (posts_made fresh_world) = false
  /\ executed (effects (buildProcess sample_config (env_no_ack 0) p
                 (Some "out/1700000000000.txt") fresh_world)) = []
  /\ executed (effects (deployProcess sample_config (env_no_ack 0) p fresh_world))
     = ["touch out/1700000000000.txt"]
  /\ logged (effects (deployProcess sample_config (env_no_ack 0) p fresh_world)) = [].
Proof. cbv zeta. repeat split; vm_compute; reflexivity. Qed.

(** C4, amended.  If the pending post is rejected, [buildProcess] is
    rejected with it (no reason given) before [makeBuild] is called: it
    posts the pending status, runs no command, and leaves the directories
    as they were; [deployProcess] catches the rejection, logs it, and
    takes neither the deploy branch nor the failure branch. *)
Theorem pending_rejected_ends_pipeline (config : Config) (env : Env)
    (p : Push.Payload) (w : World) :
  acked env (posts_made w) = false ->
  (forall outputFile,
      let o := buildProcess config env p outputFile w in
      completion o = Throw JUndefined
      /\ posted (effects o) = [pending_status]
      /\ executed (effects o) = []
      /\ dirs (world o) = dirs w)
  /\ (let d := deployProcess config env p w in
      completion d = Normal tt
      /\ executed (effects d) = ["touch " ++ output_file config (now w)]
      /\ logged (effects d) = []
      /\ effects d =
         [ShellExec ("touch " ++ output_file config (now w));
          ClientPost (commit_status_url config p) (status_args pending_status);
          ConsoleError "Something went wrong";
          ConsoleError "Something went wrong undefined"]).
Proof.
  intros Hack. split.
  - intros outputFile. cbv zeta.
    rewrite (buildProcess_rejected config env p outputFile w Hack).
    cbn [completion world effects]. read_effects. repeat split.
  - cbv zeta.
    pose proof (deployProcess_run config env p w) as Hd. cbv zeta in Hd. rewrite Hd.
    rewrite (buildProcess_rejected config env p _ (tick_exec w) Hack).
    cbn [completion world effects]. read_effects. repeat split.
Qed.

(** A run in which no post is acknowledged. *)
Lemma pending_rejected_ends_pipeline_witness :
  acked (env_no_ack 0) (posts_made fresh_world) = false
  /\ logged (effects (deployProcess sample_config (env_no_ack 0)
               (Push.payload (sample_push "refs/heads/develop")) fresh_world)) = [].
Proof.
  split; [reflexivity|].
  exact (proj1 (proj2 (proj2 (proj2
    (pending_rejected_ends_pipeline sample_config (env_no_ack 0)
       (Push.payload (sample_push "refs/heads/develop")) fresh_world eq_refl))))).
Defined.

(** ** Deploy or notify *)

(** C5, as stated, fails: for a ref in the deploy set, with the test
    command exiting with 1 and the final post rejected, the resulting
    status is [failure] (it is the status posted), yet [deployProcess]
    does not take the failure branch; it takes neither branch. *)
Lemma final_rejected_no_failure_branch :
  let o := on_push sample_config (env_final_lost 1)
             (sample_push "refs/heads/develop") fresh_world in
  In "refs/heads/develop" (deployFor sample_config)
  /\ posted (effects o) = [pending_status; failure_status]
  /\ ~ In "build failed" (logged (effects o))
  /\ ~ In "build successfull" (logged (effects o)).
Proof.
  cbv zeta. split; [simpl; auto|]. split; [vm_compute; reflexivity|].
  split; vm_compute; absent.
Qed.

(** C5, amended.  When both status posts are acknowledged, the commit
    pipeline returns the raw exit code of the test command, and
    [deployProcess] takes the deploy branch if and only if that exit code
    is 0 and the failure branch otherwise; for exit codes 0 and 1 that is
    if and only if the status posted is [success].  When a status post is
    rejected, neither branch is taken. *)
Theorem deploy_branches_on_exit_code (config : Config) (env : Env)
    (p : Push.Payload) (w : World) :
  let c := exec_code env (3 + execs_made w) in
  let out := effects (deployProcess config env p w) in
  (acked env (posts_made w) = true -> acked env (S (posts_made w)) = true ->
   completion (buildProcess config env p (Some (output_file config (now w))) (tick_exec w))
   = Normal c
   /\ (In "build successfull" (logged out) <-> c = 0%Z)
   /\ (In "build failed" (logged out) <-> c <> 0%Z)
   /\ (c = 0%Z \/ c = 1%Z ->
       (In "build successfull" (logged out) <-> In success_status (posted out))))
  /\ (acked env (posts_made w) = false \/ acked env (S (posts_made w)) = false ->
      ~ In "build successfull" (logged out) /\ ~ In "build failed" (logged out)).
Proof.
  intros c out. split.
  - intros H1 H2.
    destruct (deployProcess_acked config env p w H1 H2) as (Hp & Hl & _).
    fold c in Hp, Hl. fold out in Hp, Hl. rewrite Hp, Hl.
    pose proof (buildProcess_run config env p (Some (output_file config (now w)))
                  (tick_exec w) H1) as Hb.
    cbv zeta in Hb. rewrite Hb. cbn [completion].
    change (posts_made (tick_exec w)) with (posts_made w). rewrite H2.
    change (exec_code env (2 + execs_made (tick_exec w))) with c.
    split; [reflexivity|].
    assert (Hs : In "build successfull"
                   ["Status updated"; "Status updated";
                    if (c =? 0)%Z then "build successfull" else "build failed"] <-> c = 0%Z).
    { destruct (c =? 0)%Z eqn:E.
      - apply Z.eqb_eq in E. simpl. tauto.
      - apply Z.eqb_neq in E. split; [absent|tauto]. }
    split; [exact Hs|]. split.
    + destruct (c =? 0)%Z eqn:E.
      * apply Z.eqb_eq in E. split; [absent|tauto].
      * apply Z.eqb_neq in E. simpl. tauto.
    + intros Hc. rewrite Hs. unfold final_status.
      destruct Hc as [Hc|Hc]; rewrite Hc; simpl.
      * split; auto.
      * split; [discriminate|absent].
  - intros Hrej. subst out.
    pose proof (deployProcess_run config env p w) as Hd. cbv zeta in Hd. rewrite Hd.
    cbn [effects]. clear Hd.
    destruct (acked env (posts_made w)) eqn:H1.
    + destruct Hrej as [Hrej|Hrej]; [discriminate|].
      pose proof (buildProcess_run config env p (Some (output_file config (now w)))
                    (tick_exec w) H1) as Hb.
      cbv zeta in Hb. rewrite Hb. cbn [completion effects].
      change (posts_made (tick_exec w)) with (posts_made w). rewrite Hrej.
      destruct (makeBuild_summary env (Push.clone_url (Push.repository p))
                  (workdir (Push.id (Push.head_commit p)))
                  (Some (output_file config (now w)))
                  (tick_post (tick_exec w))) as (_ & _ & _ & _ & Hl & _).
      set (b := makeBuild env _ _ _ _) in *. clearbody b.
      read_effects. rewrite Hl.
      split; absent.
    + rewrite (buildProcess_rejected config env p _ (tick_exec w) H1).
      cbn [completion effects]. read_effects. simpl. tauto.
Qed.

(** An acknowledged run with exit code 0, and a run whose final post is lost. *)
Lemma deploy_branches_on_exit_code_witness :
  (acked (env_exit 0) (posts_made fresh_world) = true
   /\ acked (env_exit 0) (S (posts_made fresh_world)) = true
   /\ In "build successfull"
        (logged (effects (deployProcess sample_config (env_exit 0)
                            (Push.payload (sample_push "refs/heads/develop")) fresh_world))))
  /\ (acked (env_final_lost 1) (S (posts_made fresh_world)) = false
      /\ ~ In "build failed"
           (logged (effects (deployProcess sample_config (env_final_lost 1)
                               (Push.payload (sample_push "refs/heads/develop")) fresh_world)))).
Proof.
  split.
  - split; [reflexivity|]. split; [reflexivity|].
    destruct (proj1 (deploy_branches_on_exit_code sample_config (env_exit 0)
                       (Push.payload (sample_push "refs/heads/develop")) fresh_world)
                eq_refl eq_refl) as (_ & Hdeploy & _).
    apply Hdeploy. reflexivity.
  - split; [reflexivity|].
    exact (proj2 (proj2 (deploy_branches_on_exit_code sample_config (env_final_lost 1)
                           (Push.payload (sample_push "refs/heads/develop")) fresh_world)
                    (or_intror eq_refl))).
Defined.

(** ** Clone or pull *)

(** C6.  [makeBuild] on a working directory that does not exist makes it
    with [mkdir -p] (so the directory and its parents exist afterwards),
    clones the repository into it and enters it; on one that exists it
    enters it and pulls, without [mkdir] or clone.  In both cases
    [npm install] and then the test command follow, and the result carries
    the exit code of the test command. *)
Theorem makeBuild_clones_or_pulls (env : Env) (cloneURL cwd : string)
    (outputFile : option string) (w : World) :
  let o := makeBuild env cloneURL cwd outputFile w in
  (existsSync cwd w = false ->
   effects o = [ShellMkdir "-p" cwd;
                ShellExec ("git clone " ++ cloneURL ++ " " ++ cwd);
                ShellCd cwd;
                ShellExec "npm install";
                ShellExec (npm_test outputFile)]
   /\ (forall d, In d (path_prefixes cwd) -> existsSync d (world o) = true)
   /\ (cwd <> "" -> existsSync cwd (world o) = true))
  /\ (existsSync cwd w = true ->
      effects o = [ShellCd cwd;
                   ShellExec "git pull";
                   ShellExec "npm install";
                   ShellExec (npm_test outputFile)]
      /\ dirs (world o) = dirs w)
  /\ completion o = Normal {| code := exec_code env (2 + execs_made w) |}.
Proof.
  intros o. subst o. repeat split.
  - rewrite (makeBuild_absent env _ _ _ _ H). reflexivity.
  - intros d Hd. rewrite (makeBuild_absent env _ _ _ _ H). cbn [world].
    apply existsSync_In. simpl. apply in_or_app. now left.
  - intros Hne. rewrite (makeBuild_absent env _ _ _ _ H). cbn [world].
    apply existsSync_In. simpl. apply in_or_app. left. now apply path_prefixes_self.
  - rewrite (makeBuild_present env _ _ _ _ H). reflexivity.
  - rewrite (makeBuild_present env _ _ _ _ H). reflexivity.
  - apply (makeBuild_summary env cloneURL cwd outputFile w).
Qed.

(** Two builds of the same commit in a row: the first clones, the second pulls. *)
Lemma makeBuild_clones_or_pulls_witness :
  let first := makeBuild (env_exit 0) "https://example.com/repo.git" (workdir "abc123")
                 None fresh_world in
  (existsSync (workdir "abc123") fresh_world = false
   /\ executed (effects first)
      = ["git clone https://example.com/repo.git " ++ workdir "abc123";
         "npm install"; npm_test None])
  /\ (existsSync (workdir "abc123") (world first) = true
      /\ executed (effects (makeBuild (env_exit 0) "https://example.com/repo.git"
                              (workdir "abc123") None (world first)))
         = ["git pull"; "npm install"; npm_test None]).
Proof.
  cbv zeta. split; (split; [reflexivity|]).
  - rewrite (proj1 (proj1 (makeBuild_clones_or_pulls (env_exit 0)
                              "https://example.com/repo.git" (workdir "abc123") None fresh_world)
                      eq_refl)).
    reflexivity.
  - rewrite (proj1 (proj1 (proj2 (makeBuild_clones_or_pulls (env_exit 0)
                              "https://example.com/repo.git" (workdir "abc123") None
                              (world (makeBuild (env_exit 0) "https://example.com/repo.git"
                                        (workdir "abc123") None fresh_world))))
                      eq_refl)).
    reflexivity.
Defined.

(** ** The status URL *)

(** A split found by [splitFirst] is a split at the first occurrence. *)
Lemma splitFirst_sound (pat s pre post : string) :
  splitFirst pat s = Some (pre, post) ->
  s = pre ++ pat ++ post /\ first_occurrence pat pre post.
Proof.
  revert pre; induction s as [|c s IH]; intros pre H.
  - simpl in H. destruct (stripPrefix pat "") as [rest|] eqn:E; [|discriminate].
    inversion H; subst. apply stripPrefix_Some in E. split; [exact E|].
    intros a b _. simpl. lia.
  - cbn [splitFirst] in H.
    destruct (stripPrefix pat (String c s)) as [rest|] eqn:E.
    + inversion H; subst. apply stripPrefix_Some in E. split; [exact E|].
      intros a b _. simpl. lia.
    + destruct (splitFirst pat s) as [[before after]|] eqn:Es; [|discriminate].
      inversion H; subst. destruct (IH before eq_refl) as [Hs Hf]. split.
      * simpl. now rewrite <- Hs.
      * intros a b Hab. destruct a as [|c' a].
        -- simpl in Hab. rewrite Hs, Hab, stripPrefix_app in E. discriminate.
        -- simpl in Hab. inversion Hab as [[Hc Hrest]].
           simpl. apply le_n_S. exact (Hf a b Hrest).
Qed.

(** C7.  In pull-request mode [updateStatus] posts to the given URL as it
    is (the access token appended); in commit mode it posts to the URL in
    which the first [{sha}] is replaced by the commit hash.  The hash is
    taken as written when it has no dollar sign, as every hexadecimal
    hash. *)
Theorem status_url_by_mode (config : Config) (env : Env) (st : Status) (w : World) :
  (forall repo commit,
      hd_error (effects (updateStatus config env "PR" repo st commit w))
      = Some (ClientPost (repo ++ "?access_token=" ++ accessToken config) (status_args st)))
  /\ (forall pre post commit,
         first_occurrence "{sha}" pre post ->
         dollar_free commit = true ->
         hd_error (effects (updateStatus config env "Commit" (pre ++ "{sha}" ++ post) st
                              (Some commit) w))
         = Some (ClientPost ((pre ++ commit ++ post) ++ "?access_token=" ++ accessToken config)
                   (status_args st))).
Proof.
  split.
  - intros repo commit.
    destruct (acked env (posts_made w)) eqn:Hack.
    + rewrite (updateStatus_acked config env _ _ _ _ _ Hack). reflexivity.
    + rewrite (updateStatus_rejected config env _ _ _ _ _ Hack). reflexivity.
  - intros pre post commit Hfirst Hfree.
    assert (Hurl : repoURL "Commit" (pre ++ "{sha}" ++ post) commit = pre ++ commit ++ post).
    { unfold repoURL. cbn [String.eqb Ascii.eqb Bool.eqb].
      apply replace_first; assumption. }
    destruct (acked env (posts_made w)) eqn:Hack.
    + rewrite (updateStatus_acked config env _ _ _ _ _ Hack). cbn [effects hd_error].
      now rewrite Hurl.
    + rewrite (updateStatus_rejected config env _ _ _ _ _ Hack). cbn [effects hd_error].
      now rewrite Hurl.
Qed.

(** A statuses URL as GitHub sends it. *)
Lemma status_url_by_mode_witness :
  first_occurrence "{sha}" "https://api.example.com/statuses/" ""
  /\ dollar_free "abc123" = true
  /\ hd_error (effects (updateStatus sample_config (env_exit 0) "Commit"
                          "https://api.example.com/statuses/{sha}" pending_status
                          (Some "abc123") fresh_world))
     = Some (ClientPost "https://api.example.com/statuses/abc123?access_token=t0ken"
               (status_args pending_status)).
Proof.
  assert (Hfirst : first_occurrence "{sha}" "https://api.example.com/statuses/" "").
  { apply (splitFirst_sound "{sha}" "https://api.example.com/statuses/{sha}"). reflexivity. }
  split; [exact Hfirst|]. split; [reflexivity|].
  exact (proj2 (status_url_by_mode sample_config (env_exit 0) pending_status fresh_world)
           "https://api.example.com/statuses/" "" "abc123" Hfirst eq_refl).
Defined.

(** ** Acknowledgement or rejection *)

(** C8, as stated, fails twice.  A rejection carries nothing: with a
    [null] reply whose response body is not empty, as with an empty reply,
    the promise is rejected with [undefined], which is neither the
    response body nor the reply, and nothing of the response is logged.  And an error response is not a
    rejection: a 401 whose body parses to an object is acknowledged. *)
Lemma rejection_carries_no_body :
  let rejected := updateStatus sample_config (env_reply null_reply 0) "PR"
                    "https://api.example.com/statuses/abc123" pending_status None
                    fresh_world in
  let error := updateStatus sample_config (env_reply unauthorized_reply 0) "PR"
                 "https://api.example.com/statuses/abc123" pending_status None
                 fresh_world in
  completion rejected = Throw JUndefined
  /\ completion (updateStatus sample_config (env_no_ack 0) "PR"
                   "https://api.example.com/statuses/abc123" pending_status None
                   fresh_world) = Throw JUndefined
  /\ JUndefined <> body (reply_response null_reply)
  /\ JUndefined <> reply_data null_reply
  /\ effects rejected
     = [ClientPost "https://api.example.com/statuses/abc123?access_token=t0ken"
          (status_args pending_status);
        ConsoleError "Something went wrong"]
  /\ statusCode (reply_response unauthorized_reply) = 401%Z
  /\ completion error = Normal (reply_data unauthorized_reply).
Proof. cbv zeta. repeat split; try discriminate; vm_compute; reflexivity. Qed.

(** C8, amended.  [updateStatus] resolves, with the reply's [data],
    exactly when that [data] is truthy (for a string: when it is not
    empty), whatever the status code; otherwise it is rejected, and the
    rejection carries no reason ([undefined]); the console shows a fixed
    line in both cases. *)
Theorem updateStatus_settles_on_truthiness (config : Config) (env : Env)
    (proc repo : string) (st : Status) (commit : option string) (w : World) :
  let r := post_reply env (posts_made w) in
  let o := updateStatus config env proc repo st commit w in
  (truthy (reply_data r) = true <-> completion o = Normal (reply_data r))
  /\ (truthy (reply_data r) = false <-> completion o = Throw JUndefined)
  /\ (forall s, reply_data r = JStr s -> (s <> "" <-> completion o = Normal (JStr s)))
  /\ (forall e, completion o = Throw e -> e = JUndefined)
  /\ (exists post line,
        effects o = [post; line]
        /\ line = if truthy (reply_data r) then ConsoleLog "Status updated"
                  else ConsoleError "Something went wrong").
Proof.
  intros r o. subst o.
  destruct (truthy (reply_data r)) eqn:Ht.
  - rewrite (updateStatus_acked config env proc repo st commit w Ht).
    cbn [completion effects]. fold r.
    split; [tauto|]. split; [split; discriminate|]. split; [|split].
    + intros s Hs. rewrite Hs in *. split; [reflexivity|].
      intros _ Hempty. rewrite Hempty in Ht. discriminate Ht.
    + discriminate.
    + eauto.
  - rewrite (updateStatus_rejected config env proc repo st commit w Ht).
    cbn [completion effects].
    split; [split; discriminate|]. split; [tauto|]. split; [|split].
    + intros s Hs. split; [|discriminate].
      intros Hne. rewrite Hs in Ht. simpl in Ht.
      apply negb_false_iff, String.eqb_eq in Ht. contradiction.
    + intros e He. now inversion He.
    + eauto.
Qed.

(** ** Status against deploy decision *)

(** C10, as stated, fails: it speaks of every run, but with exit code 127
    and the final post rejected the status posted is [success] and
    [deployProcess] takes no branch at all, the failure branch included. *)
Lemma final_lost_127_takes_no_branch :
  let out := effects (deployProcess sample_config (env_final_lost 127)
                        (Push.payload (sample_push "refs/heads/develop")) fresh_world) in
  posted out = [pending_status; success_status]
  /\ ~ In "build failed" (logged out)
  /\ ~ In "build successfull" (logged out).
Proof.
  cbv zeta. split; [vm_compute; reflexivity|].
  split; vm_compute; absent.
Qed.

(** C10, amended.  With both posts acknowledged, the final status posted
    is [success] unless the exit code is 1, while [deployProcess] takes
    the deploy branch only for exit code 0.  So for every exit code other
    than 0 and 1 the status posted is [success] and the failure branch is
    taken; the status and the branch agree exactly for 0 and 1. *)
Theorem status_and_deploy_agree_only_on_0_and_1 (config : Config) (env : Env)
    (p : Push.Payload) (w : World) :
  acked env (posts_made w) = true ->
  acked env (S (posts_made w)) = true ->
  let c := exec_code env (3 + execs_made w) in
  let out := effects (deployProcess config env p w) in
  (c <> 0%Z /\ c <> 1%Z ->
   posted out = [pending_status; success_status]
   /\ logged out = ["Status updated"; "Status updated"; "build failed"])
  /\ ((In success_status (posted out) <-> In "build successfull" (logged out))
      <-> c = 0%Z \/ c = 1%Z).
Proof.
  intros H1 H2 c out.
  destruct (deployProcess_acked config env p w H1 H2) as (Hp & Hl & _).
  fold c in Hp, Hl. fold out in Hp, Hl. rewrite Hp, Hl. unfold final_status.
  clearbody c. clear Hp Hl. clearbody out.
  destruct (Z.eqb_spec c 1) as [E1|E1]; destruct (Z.eqb_spec c 0) as [E0|E0].
  - lia.
  - split; [intros [_ Hc]; contradiction|].
    split; [auto|]. intros _. split; [|absent].
    intros [H|[H|[]]]; discriminate H.
  - split; [intros [Hc _]; contradiction|].
    split; [auto|]. intros _. simpl. split; auto.
  - split; [auto|]. split; [|intros [Hc|Hc]; contradiction].
    intros [Hagree _]. exfalso.
    assert (Hin : In "build successfull" ["Status updated"; "Status updated"; "build failed"]).
    { apply Hagree. simpl. auto. }
    revert Hin. absent.
Qed.

(** Exit code 127: status [success], branch [build failed]. *)
Lemma status_and_deploy_agree_only_on_0_and_1_witness :
  let out := effects (deployProcess sample_config (env_exit 127)
                        (Push.payload (sample_push "refs/heads/develop")) fresh_world) in
  acked (env_exit 127) (posts_made fresh_world) = true
  /\ acked (env_exit 127) (S (posts_made fresh_world)) = true
  /\ posted out = [pending_status; success_status]
  /\ logged out = ["Status updated"; "Status updated"; "build failed"].
Proof.
  cbv zeta. split; [reflexivity|]. split; [reflexivity|].
  apply (proj1 (status_and_deploy_agree_only_on_0_and_1 sample_config (env_exit 127)
                  (Push.payload (sample_push "refs/heads/develop")) fresh_world
                  eq_refl eq_refl)).
  split; discriminate.
Defined.

(** * Further properties of the handlers *)

(** ** More on strings and paths *)

Lemma append_cancel_l (a x y : string) : a ++ x = a ++ y -> x = y.
Proof. induction a as [|c a IH]; simpl; intros H; [exact H|]. inversion H. auto. Qed.

Lemma length_append (a b : string) :
  String.length (a ++ b) = String.length a + String.length b.
Proof. induction a as [|c a IH]; simpl; [reflexivity|]. now rewrite IH. Qed.

Lemma append_cancel_r (x y s : string) : x ++ s = y ++ s -> x = y.
Proof.
  revert y; induction x as [|c x IH]; intros [|d y] H; simpl in H.
  - reflexivity.
  - apply (f_equal String.length) in H. simpl in H. rewrite length_append in H. lia.
  - apply (f_equal String.length) in H. simpl in H. rewrite length_append in H. lia.
  - inversion H. f_equal. now apply IH.
Qed.

Lemma slash_free_app (x y : string) : slash_free (x ++ String "/" y) = false.
Proof.
  induction x as [|c x IH]; simpl; [reflexivity|].
  rewrite IH. apply andb_false_r.
Qed.

(** Every directory [mkdir -p] makes is the path itself or what precedes
    one of its slashes. *)
Lemma path_prefixes_from_in (rest acc e : string) :
  In e (path_prefixes_from acc rest) ->
  e = acc ++ rest \/ exists r1 r2, rest = r1 ++ String "/" r2 /\ e = acc ++ r1.
Proof.
  revert acc; induction rest as [|c rest IH]; intros acc H.
  - simpl in H. destruct (acc =? ""); [contradiction|].
    destruct H as [H|[]]. left. now rewrite append_nil_r.
  - assert (Hrec : In e (path_prefixes_from (acc ++ String c "") rest) ->
                   e = acc ++ String c rest
                   \/ exists r1 r2, String c rest = r1 ++ String "/" r2 /\ e = acc ++ r1).
    { intros Hin. destruct (IH _ Hin) as [He|(r1 & r2 & Hr & He)].
      - left. rewrite He, append_assoc. reflexivity.
      - right. exists (String c r1), r2. split.
        + simpl. now rewrite Hr.
        + rewrite He, append_assoc. reflexivity. }
    simpl in H.
    destruct (Ascii.eqb c "/") eqn:Ec; destruct (acc =? "") eqn:Ea; simpl in H; auto.
    destruct H as [H|H]; auto.
    right. exists "", rest. apply Ascii.eqb_eq in Ec. subst c.
    split; [reflexivity|]. now rewrite append_nil_r.
Qed.

Lemma path_prefixes_in (path e : string) :
  In e (path_prefixes path) ->
  e = path \/ exists r1 r2, path = r1 ++ String "/" r2 /\ e = r1.
Proof. intros H. exact (path_prefixes_from_in path "" e H). Qed.

Lemma workdir_inj (a b : string) : workdir a = workdir b -> a = b.
Proof. unfold workdir. apply append_cancel_l. Qed.

Lemma workdir_nonempty (sha : string) : workdir sha <> "".
Proof. discriminate. Qed.

Lemma workdir_append (sha t : string) : workdir sha ++ t = workdir (sha ++ t).
Proof.
  unfold workdir.
  exact (append_assoc "/Users/santhoshraju/Documents/github-node-webhook/PRS/" sha t).
Qed.

(** [mkdir -p] of the working directory of a commit makes the working
    directory of no other commit. *)
Lemma workdir_not_made (a b : string) :
  slash_free a = true -> b <> a -> ~ In (workdir b) (path_prefixes (workdir a)).
Proof.
  intros Hfree Hne Hin.
  destruct (path_prefixes_in (workdir a) (workdir b) Hin)
    as [He|(r1 & r2 & Hr & He)].
  - apply (workdir_inj b a) in He. contradiction.
  - subst r1.
    rewrite workdir_append in Hr. apply (workdir_inj a) in Hr.
    rewrite Hr, slash_free_app in Hfree. discriminate Hfree.
Qed.

Lemma existsSync_false (path : string) (w : World) :
  existsSync path w = false <-> ~ In path (dirs w).
Proof.
  rewrite <- existsSync_In. destruct (existsSync path w); split; congruence.
Qed.

(** ** Builds and the directories *)

Section Builds.

Variable env : Env.

(** The commands of a build. *)
Lemma makeBuild_executed (cloneURL cwd : string) (outputFile : option string) (w : World) :
  executed (effects (makeBuild env cloneURL cwd outputFile w))
  = [fetch_command cloneURL cwd w; "npm install"; npm_test outputFile].
Proof.
  unfold fetch_command. destruct (existsSync cwd w) eqn:E.
  - now rewrite (makeBuild_present env _ _ _ _ E).
  - now rewrite (makeBuild_absent env _ _ _ _ E).
Qed.

Lemma makeBuild_no_post (cloneURL cwd : string) (outputFile : option string) (w : World)
    (url : string) (args : PostArgs) :
  ~ In (ClientPost url args) (effects (makeBuild env cloneURL cwd outputFile w)).
Proof.
  destruct (existsSync cwd w) eqn:E.
  - rewrite (makeBuild_present env _ _ _ _ E). absent.
  - rewrite (makeBuild_absent env _ _ _ _ E). absent.
Qed.

(** What exists before a build exists after it. *)
Lemma makeBuild_keeps (cloneURL cwd : string) (outputFile : option string) (w : World)
    (d : string) :
  existsSync d w = true ->
  existsSync d (world (makeBuild env cloneURL cwd outputFile w)) = true.
Proof.
  intros Hd. destruct (existsSync cwd w) eqn:E.
  - rewrite (makeBuild_present env _ _ _ _ E). exact Hd.
  - rewrite (makeBuild_absent env _ _ _ _ E).
    apply existsSync_In. apply existsSync_In in Hd. simpl. apply in_or_app. now right.
Qed.

Lemma makeBuild_makes_cwd (cloneURL cwd : string) (outputFile : option string) (w : World) :
  cwd <> "" ->
  existsSync cwd (world (makeBuild env cloneURL cwd outputFile w)) = true.
Proof.
  intros Hne. destruct (existsSync cwd w) eqn:E.
  - now apply makeBuild_keeps.
  - rewrite (makeBuild_absent env _ _ _ _ E).
    apply existsSync_In. simpl. apply in_or_app. left. now apply path_prefixes_self.
Qed.

(** A build of commit [a] makes no difference to whether the working
    directory of another commit exists. *)
Lemma makeBuild_other_workdir (cloneURL a b : string) (outputFile : option string)
    (w : World) :
  slash_free a = true -> b <> a ->
  existsSync (workdir b) (world (makeBuild env cloneURL (workdir a) outputFile w))
  = existsSync (workdir b) w.
Proof.
  intros Hfree Hne. destruct (existsSync (workdir a) w) eqn:E.
  - now rewrite (makeBuild_present env _ _ _ _ E).
  - rewrite (makeBuild_absent env _ _ _ _ E).
    unfold existsSync. cbn [world dirs tick_exec set_pwd add_dirs String.eqb].
    rewrite existsb_app.
    replace (existsb (String.eqb (workdir b)) (path_prefixes (workdir a))) with false;
      [reflexivity|].
    symmetry. apply not_true_is_false. intros H.
    apply existsb_exists in H as [x [Hx Heq]]. apply String.eqb_eq in Heq. subst x.
    exact (workdir_not_made a b Hfree Hne Hx).
Qed.

End Builds.

(** ** What a pipeline runs and leaves behind *)

Lemma existsSync_tick_post (d : string) (w : World) :
  existsSync d (tick_post w) = existsSync d w.
Proof. reflexivity. Qed.

Lemma existsSync_tick_exec (d : string) (w : World) :
  existsSync d (tick_exec w) = existsSync d w.
Proof. reflexivity. Qed.

Lemma fetch_command_tick_post (cloneURL cwd : string) (w : World) :
  fetch_command cloneURL cwd (tick_post w) = fetch_command cloneURL cwd w.
Proof. reflexivity. Qed.

Lemma fetch_command_tick_exec (cloneURL cwd : string) (w : World) :
  fetch_command cloneURL cwd (tick_exec w) = fetch_command cloneURL cwd w.
Proof. reflexivity. Qed.

Section Pipelines.

Variable config : Config.
Variable env : Env.

(** The commands of a commit pipeline whose pending post is acknowledged. *)
Lemma buildProcess_executed (p : Push.Payload) (outputFile : option string) (w : World) :
  acked env (posts_made w) = true ->
  executed (effects (buildProcess config env p outputFile w))
  = [fetch_command (Push.clone_url (Push.repository p))
       (workdir (Push.id (Push.head_commit p))) w;
     "npm install"; npm_test outputFile].
Proof.
  intros Hack.
  pose proof (buildProcess_run config env p outputFile w Hack) as Hb. cbv zeta in Hb.
  rewrite Hb. cbn [effects]. clear Hb.
  rewrite !executed_app, makeBuild_executed, fetch_command_tick_post.
  destruct (acked env (S (posts_made w))); reflexivity.
Qed.

(** The commands of a pull-request pipeline whose pending post is
    acknowledged. *)
Lemma buildPRProcess_executed (p : PR.Payload) (w : World) :
  acked env (posts_made w) = true ->
  executed (effects (buildPRProcess config env p w))
  = [fetch_command (PR.clone_url (PR.repo (PR.base (PR.pull_request p))))
       (workdir (PR.sha (PR.head (PR.pull_request p)))) w;
     "npm install"; npm_test None].
Proof.
  intros Hack.
  pose proof (buildPRProcess_run config env p w Hack) as Hb. cbv zeta in Hb.
  rewrite Hb. cbn [effects]. clear Hb.
  rewrite !executed_app, makeBuild_executed, fetch_command_tick_post.
  destruct (acked env (S (posts_made w))); reflexivity.
Qed.

(** The world a commit pipeline leaves. *)
Lemma buildProcess_world (p : Push.Payload) (outputFile : option string) (w : World) :
  world (buildProcess config env p outputFile w)
  = if acked env (posts_made w)
    then tick_post (world (makeBuild env (Push.clone_url (Push.repository p))
                             (workdir (Push.id (Push.head_commit p))) outputFile
                             (tick_post w)))
    else tick_post w.
Proof.
  destruct (acked env (posts_made w)) eqn:Hack.
  - pose proof (buildProcess_run config env p outputFile w Hack) as Hb. cbv zeta in Hb.
    now rewrite Hb.
  - now rewrite (buildProcess_rejected config env p outputFile w Hack).
Qed.

(** The world a pull-request pipeline leaves. *)
Lemma buildPRProcess_world (p : PR.Payload) (w : World) :
  world (buildPRProcess config env p w)
  = if acked env (posts_made w)
    then tick_post (world (makeBuild env (PR.clone_url (PR.repo (PR.base (PR.pull_request p))))
                             (workdir (PR.sha (PR.head (PR.pull_request p)))) None
                             (tick_post w)))
    else tick_post w.
Proof.
  destruct (acked env (posts_made w)) eqn:Hack.
  - pose proof (buildPRProcess_run config env p w Hack) as Hb. cbv zeta in Hb.
    now rewrite Hb.
  - now rewrite (buildPRProcess_rejected config env p w Hack).
Qed.

(** The world a deploy leaves is the world its pipeline leaves. *)
Lemma deployProcess_world (p : Push.Payload) (w : World) :
  world (deployProcess config env p w)
  = world (buildProcess config env p (Some (output_file config (now w))) (tick_exec w)).
Proof.
  pose proof (deployProcess_run config env p w) as Hd. cbv zeta in Hd. now rewrite Hd.
Qed.

End Pipelines.

(** ** One working directory per commit *)

(** X1.  Once [makeBuild] has run for a working directory given as an
    absolute path, any later [makeBuild] for that path, whatever the clone
    URL and the output file, enters it and pulls: no [mkdir], no clone. *)
Theorem makeBuild_again_pulls (env : Env) (url1 url2 cwd : string)
    (out1 out2 : option string) (w : World) :
  absolute cwd = true ->
  effects (makeBuild env url2 cwd out2 (world (makeBuild env url1 cwd out1 w)))
  = [ShellCd cwd; ShellExec "git pull"; ShellExec "npm install"; ShellExec (npm_test out2)].
Proof.
  intros Habs. rewrite makeBuild_present; [reflexivity|].
  apply makeBuild_makes_cwd. intros E. rewrite E in Habs. discriminate Habs.
Qed.

(** A second build of a directory right after the first. *)
Lemma makeBuild_again_pulls_witness :
  absolute "/srv/PRS/abc" = true
  /\ effects (makeBuild (env_exit 0) "https://example.com/fork.git" "/srv/PRS/abc" None
                (world (makeBuild (env_exit 0) "https://example.com/repo.git" "/srv/PRS/abc"
                          (Some "out.txt") fresh_world)))
     = [ShellCd "/srv/PRS/abc"; ShellExec "git pull"; ShellExec "npm install";
        ShellExec (npm_test None)].
Proof.
  split; [reflexivity|].
  exact (makeBuild_again_pulls (env_exit 0) "https://example.com/repo.git"
           "https://example.com/fork.git" "/srv/PRS/abc" (Some "out.txt") None
           fresh_world eq_refl).
Defined.

Lemma hex_digit_not_slash (c : ascii) : is_hex_digit c = true -> Ascii.eqb c "/" = false.
Proof.
  intros H. destruct (Ascii.eqb_spec c "/") as [->|]; [discriminate H|reflexivity].
Qed.

Lemma all_hex_slash_free (s : string) : all_hex s = true -> slash_free s = true.
Proof.
  induction s as [|c s IH]; simpl; [reflexivity|].
  intros H. apply andb_true_iff in H as [Hc Hs].
  now rewrite (hex_digit_not_slash c Hc), IH.
Qed.

Lemma is_sha_slash_free (s : string) : is_sha s = true -> slash_free s = true.
Proof.
  unfold is_sha. intros H. apply andb_true_iff in H as [_ H].
  now apply all_hex_slash_free.
Qed.

(** X2.  Commit ids being non-empty strings of lower-case hexadecimal
    digits, a pipeline for one commit (in commit mode, in pull-request
    mode or through [deployProcess], whatever the replies and exit codes)
    leaves the working directory of every other commit as it was: present
    if it was present, absent if it was absent. *)
Theorem pipeline_leaves_other_commits (config : Config) (env : Env) (w : World)
    (other : string) :
  is_sha other = true ->
  (forall (p : Push.Payload) (outputFile : option string),
      is_sha (Push.id (Push.head_commit p)) = true ->
      other <> Push.id (Push.head_commit p) ->
      existsSync (workdir other) (world (buildProcess config env p outputFile w))
      = existsSync (workdir other) w
      /\ existsSync (workdir other) (world (deployProcess config env p w))
         = existsSync (workdir other) w)
  /\ (forall p : PR.Payload,
         is_sha (PR.sha (PR.head (PR.pull_request p))) = true ->
         other <> PR.sha (PR.head (PR.pull_request p)) ->
         existsSync (workdir other) (world (buildPRProcess config env p w))
         = existsSync (workdir other) w).
Proof.
  intros _.
  assert (Hcommit : forall p outputFile w',
             is_sha (Push.id (Push.head_commit p)) = true ->
             other <> Push.id (Push.head_commit p) ->
             existsSync (workdir other) (world (buildProcess config env p outputFile w'))
             = existsSync (workdir other) w').
  { intros p outputFile w' Hsha Hne. apply is_sha_slash_free in Hsha.
    rewrite buildProcess_world.
    destruct (acked env (posts_made w')); rewrite existsSync_tick_post; [|reflexivity].
    now rewrite makeBuild_other_workdir. }
  split.
  - intros p outputFile Hsha Hne. split; [now apply Hcommit|].
    rewrite deployProcess_world, Hcommit by assumption. reflexivity.
  - intros p Hsha Hne. apply is_sha_slash_free in Hsha. rewrite buildPRProcess_world.
    destruct (acked env (posts_made w)); rewrite existsSync_tick_post; [|reflexivity].
    now rewrite makeBuild_other_workdir.
Qed.

(** Building commit abc123 where only the directory of def456 exists. *)
Lemma pipeline_leaves_other_commits_witness :
  let w := add_dirs [workdir "def456"] fresh_world in
  let p := Push.payload (sample_push "refs/heads/develop") in
  (is_sha "def456" = true
   /\ is_sha (Push.id (Push.head_commit p)) = true
   /\ "def456" <> Push.id (Push.head_commit p)
   /\ existsSync (workdir "def456") (world (deployProcess sample_config (env_exit 0) p w))
      = existsSync (workdir "def456") w)
  /\ (is_sha "fedcba" = true
      /\ "fedcba" <> Push.id (Push.head_commit p)
      /\ existsSync (workdir "fedcba") (world (deployProcess sample_config (env_exit 0) p w))
         = existsSync (workdir "fedcba") w).
Proof.
  cbv zeta. split.
  - split; [reflexivity|]. split; [reflexivity|].
    assert (Hne : "def456" <> "abc123") by discriminate.
    split; [exact Hne|].
    exact (proj2 (proj1 (pipeline_leaves_other_commits sample_config (env_exit 0)
                           (add_dirs [workdir "def456"] fresh_world) "def456" eq_refl)
                    (Push.payload (sample_push "refs/heads/develop")) None eq_refl Hne)).
  - split; [reflexivity|].
    assert (Hne : "fedcba" <> "abc123") by discriminate.
    split; [exact Hne|].
    exact (proj2 (proj1 (pipeline_leaves_other_commits sample_config (env_exit 0)
                           (add_dirs [workdir "def456"] fresh_world) "fedcba" eq_refl)
                    (Push.payload (sample_push "refs/heads/develop")) None eq_refl Hne)).
Defined.

(** X3.  After a commit pipeline whose pending post was acknowledged, the
    working directory of its commit exists; a later pipeline for the same
    id, the commit again or a pull request with that head (whatever its
    clone URL), pulls in that directory and does not clone. *)
Theorem same_commit_is_pulled (config : Config) (env : Env) (p : Push.Payload)
    (outputFile : option string) (w : World) :
  acked env (posts_made w) = true ->
  let w1 := world (buildProcess config env p outputFile w) in
  acked env (posts_made w1) = true ->
  existsSync (workdir (Push.id (Push.head_commit p))) w1 = true
  /\ (forall outputFile',
         executed (effects (buildProcess config env p outputFile' w1))
         = ["git pull"; "npm install"; npm_test outputFile'])
  /\ (forall q : PR.Payload,
         PR.sha (PR.head (PR.pull_request q)) = Push.id (Push.head_commit p) ->
         executed (effects (buildPRProcess config env q w1))
         = ["git pull"; "npm install"; npm_test None]).
Proof.
  intros H1 w1 H2.
  assert (Hex : existsSync (workdir (Push.id (Push.head_commit p))) w1 = true).
  { subst w1. rewrite buildProcess_world, H1, existsSync_tick_post.
    apply makeBuild_makes_cwd, workdir_nonempty. }
  split; [exact Hex|]. split.
  - intros outputFile'. rewrite (buildProcess_executed config env p outputFile' w1 H2).
    unfold fetch_command. now rewrite Hex.
  - intros q Hq. rewrite (buildPRProcess_executed config env q w1 H2).
    unfold fetch_command. now rewrite Hq, Hex.
Qed.

(** A push of abc123 followed by a pull request whose head is abc123. *)
Lemma same_commit_is_pulled_witness :
  let p := Push.payload (sample_push "refs/heads/develop") in
  let w1 := world (buildProcess sample_config (env_exit 0) p None fresh_world) in
  acked (env_exit 0) (posts_made fresh_world) = true
  /\ acked (env_exit 0) (posts_made w1) = true
  /\ executed (effects (buildPRProcess sample_config (env_exit 0) sample_pr w1))
     = ["git pull"; "npm install"; npm_test None].
Proof.
  cbv zeta. split; [reflexivity|]. split; [reflexivity|].
  exact (proj2 (proj2 (same_commit_is_pulled sample_config (env_exit 0)
                         (Push.payload (sample_push "refs/heads/develop")) None fresh_world
                         eq_refl eq_refl))
           sample_pr eq_refl).
Defined.

(** ** Posts and commands of a pipeline *)

Section Traces.

Variable config : Config.
Variable env : Env.

(** The statuses a commit pipeline posts. *)
Lemma buildProcess_posted (p : Push.Payload) (outputFile : option string) (w : World) :
  posted (effects (buildProcess config env p outputFile w))
  = if acked env (posts_made w)
    then [pending_status; final_status (exec_code env (2 + execs_made w))]
    else [pending_status].
Proof.
  destruct (acked env (posts_made w)) eqn:Hack.
  - pose proof (buildProcess_run config env p outputFile w Hack) as Hb. cbv zeta in Hb.
    rewrite Hb. cbn [effects]. clear Hb.
    destruct (makeBuild_summary env (Push.clone_url (Push.repository p))
                (workdir (Push.id (Push.head_commit p))) outputFile (tick_post w))
      as (_ & _ & _ & Hp & _).
    rewrite !posted_app, Hp. cbn [posted app]. rewrite !status_args_data.
    destruct (acked env (S (posts_made w))); reflexivity.
  - now rewrite (buildProcess_rejected config env p outputFile w Hack).
Qed.

(** The statuses a pull-request pipeline posts. *)
Lemma buildPRProcess_posted (p : PR.Payload) (w : World) :
  posted (effects (buildPRProcess config env p w))
  = if acked env (posts_made w)
    then [pending_status; final_status (exec_code env (2 + execs_made w))]
    else [pending_status].
Proof.
  destruct (acked env (posts_made w)) eqn:Hack.
  - pose proof (buildPRProcess_run config env p w Hack) as Hb. cbv zeta in Hb.
    rewrite Hb. cbn [effects]. clear Hb.
    destruct (makeBuild_summary env (PR.clone_url (PR.repo (PR.base (PR.pull_request p))))
                (workdir (PR.sha (PR.head (PR.pull_request p)))) None (tick_post w))
      as (_ & _ & _ & Hp & _).
    rewrite !posted_app, Hp. cbn [posted app]. rewrite !status_args_data.
    destruct (acked env (S (posts_made w))); reflexivity.
  - now rewrite (buildPRProcess_rejected config env p w Hack).
Qed.

(** Every post of a commit pipeline goes to the status URL of its commit
    and sends one of the pipeline's statuses. *)
Lemma buildProcess_posts (p : Push.Payload) (outputFile : option string) (w : World)
    (url : string) (args : PostArgs) :
  In (ClientPost url args) (effects (buildProcess config env p outputFile w)) ->
  url = commit_status_url config p
  /\ (args = status_args pending_status \/ exists c, args = status_args (final_status c)).
Proof.
  destruct (acked env (posts_made w)) eqn:Hack.
  - pose proof (buildProcess_run config env p outputFile w Hack) as Hb. cbv zeta in Hb.
    rewrite Hb. cbn [effects]. clear Hb. intros H.
    apply in_app_or in H as [H|H]; [|apply in_app_or in H as [H|H]].
    + destruct H as [H|[H|[]]]; [|discriminate H]. inversion H. auto.
    + now apply makeBuild_no_post in H.
    + destruct H as [H|[H|[]]].
      * inversion H. eauto.
      * destruct (acked env (S (posts_made w))); discriminate H.
  - rewrite (buildProcess_rejected config env p outputFile w Hack). cbn [effects].
    intros [H|[H|[]]]; [|discriminate H]. inversion H. auto.
Qed.

(** The commands of a deploy: the [touch], then those of its pipeline. *)
Lemma deployProcess_executed (p : Push.Payload) (w : World) :
  executed (effects (deployProcess config env p w))
  = ("touch " ++ output_file config (now w))
    :: executed (effects (buildProcess config env p (Some (output_file config (now w)))
                            (tick_exec w))).
Proof.
  pose proof (deployProcess_run config env p w) as Hd. cbv zeta in Hd. rewrite Hd.
  cbn [effects executed]. rewrite executed_app.
  destruct (completion (buildProcess config env p (Some (output_file config (now w)))
                          (tick_exec w)));
    cbn [executed]; now rewrite app_nil_r.
Qed.

(** The statuses a deploy posts are those of its pipeline. *)
Lemma deployProcess_posted (p : Push.Payload) (w : World) :
  posted (effects (deployProcess config env p w))
  = posted (effects (buildProcess config env p (Some (output_file config (now w)))
                       (tick_exec w))).
Proof.
  pose proof (deployProcess_run config env p w) as Hd. cbv zeta in Hd. rewrite Hd.
  cbn [effects posted]. rewrite posted_app.
  destruct (completion (buildProcess config env p (Some (output_file config (now w)))
                          (tick_exec w)));
    cbn [posted]; now rewrite app_nil_r.
Qed.

End Traces.

Lemma last_of_three_parts (a b : list Effect) (x y d : Effect) :
  last (a ++ b ++ [x; y]) d = y.
Proof.
  change [x; y] with ([x] ++ [y])%list. rewrite !app_assoc. apply last_last.
Qed.

(** X4.  A pull-request pipeline whose pending post is acknowledged runs
    three commands: [git pull] when the working directory of the head
    commit exists and the clone otherwise, then [npm install], then the
    test command.  [makeBuild] gets no output file there, so the test
    output is appended to a file named [undefined]. *)
Theorem pr_pipeline_commands (config : Config) (env : Env) (p : PR.Payload) (w : World) :
  acked env (posts_made w) = true ->
  let cwd := workdir (PR.sha (PR.head (PR.pull_request p))) in
  executed (effects (buildPRProcess config env p w))
  = [if existsSync cwd w then "git pull"
     else "git clone " ++ PR.clone_url (PR.repo (PR.base (PR.pull_request p))) ++ " " ++ cwd;
     "npm install";
     "npm test >> /Users/santhoshraju/Documents/github-node-webhook/undefined"].
Proof.
  intros Hack cwd. now rewrite (buildPRProcess_executed config env p w Hack).
Qed.

(** A pull-request build on a fresh machine. *)
Lemma pr_pipeline_commands_witness :
  acked (env_exit 0) (posts_made fresh_world) = true
  /\ executed (effects (buildPRProcess sample_config (env_exit 0) sample_pr fresh_world))
     = ["git clone https://example.com/repo.git " ++ workdir "abc123";
        "npm install";
        "npm test >> /Users/santhoshraju/Documents/github-node-webhook/undefined"].
Proof.
  split; [reflexivity|].
  exact (pr_pipeline_commands sample_config (env_exit 0) sample_pr fresh_world eq_refl).
Defined.

(** X5.  When the pending post is acknowledged and the final post is
    rejected, the whole build has run and the final status was sent, but
    the pipeline ends in a rejection without a reason: in commit mode the
    exit code is not returned, and in pull-request mode nothing catches
    the rejection. *)
Theorem final_rejected_after_build (config : Config) (env : Env) (w : World) :
  acked env (posts_made w) = true ->
  acked env (S (posts_made w)) = false ->
  let c := exec_code env (2 + execs_made w) in
  (forall (p : Push.Payload) (outputFile : option string),
      let o := buildProcess config env p outputFile w in
      completion o = Throw JUndefined
      /\ posted (effects o) = [pending_status; final_status c]
      /\ executed (effects o)
         = [fetch_command (Push.clone_url (Push.repository p))
              (workdir (Push.id (Push.head_commit p))) w;
            "npm install"; npm_test outputFile]
      /\ last (effects o) (ConsoleLog "") = ConsoleError "Something went wrong")
  /\ (forall p : PR.Payload,
         let o := buildPRProcess config env p w in
         completion o = Throw JUndefined
         /\ posted (effects o) = [pending_status; final_status c]
         /\ executed (effects o)
            = [fetch_command (PR.clone_url (PR.repo (PR.base (PR.pull_request p))))
                 (workdir (PR.sha (PR.head (PR.pull_request p)))) w;
               "npm install"; npm_test None]
         /\ last (effects o) (ConsoleLog "") = ConsoleError "Something went wrong").
Proof.
  intros H1 H2 c. split.
  - intros p outputFile o. subst o.
    split; [|split; [|split]].
    + pose proof (buildProcess_run config env p outputFile w H1) as Hb. cbv zeta in Hb.
      rewrite Hb. cbn [completion]. now rewrite H2.
    + now rewrite buildProcess_posted, H1.
    + now apply buildProcess_executed.
    + pose proof (buildProcess_run config env p outputFile w H1) as Hb. cbv zeta in Hb.
      rewrite Hb. cbn [effects]. rewrite H2. apply last_of_three_parts.
  - intros p o. subst o.
    split; [|split; [|split]].
    + pose proof (buildPRProcess_run config env p w H1) as Hb. cbv zeta in Hb.
      rewrite Hb. cbn [completion]. now rewrite H2.
    + now rewrite buildPRProcess_posted, H1.
    + now apply buildPRProcess_executed.
    + pose proof (buildPRProcess_run config env p w H1) as Hb. cbv zeta in Hb.
      rewrite Hb. cbn [effects]. rewrite H2. apply last_of_three_parts.
Qed.

(** A failed build whose final status is lost. *)
Lemma final_rejected_after_build_witness :
  acked (env_final_lost 1) (posts_made fresh_world) = true
  /\ acked (env_final_lost 1) (S (posts_made fresh_world)) = false
  /\ completion (buildPRProcess sample_config (env_final_lost 1) sample_pr fresh_world)
     = Throw JUndefined
  /\ posted (effects (buildPRProcess sample_config (env_final_lost 1) sample_pr fresh_world))
     = [pending_status; final_status 1].
Proof.
  split; [reflexivity|]. split; [reflexivity|].
  destruct (proj2 (final_rejected_after_build sample_config (env_final_lost 1) fresh_world
                     eq_refl eq_refl) sample_pr) as (Hc & Hp & _).
  split; [exact Hc|exact Hp].
Defined.

(** X6.  Whatever the event, the replies and the exit codes, every post
    the push handler makes goes to the status URL of the pushed commit,
    with the access token, carries the two fixed headers, and sends one of
    the three statuses of the pipeline; nothing else is ever posted. *)
Theorem push_posts_only_commit_statuses (config : Config) (env : Env)
    (event : Push.Event) (w : World) (url : string) (args : PostArgs) :
  In (ClientPost url args) (effects (on_push config env event w)) ->
  url = repoURL "Commit" (Push.statuses_url (Push.repository (Push.payload event)))
          (Push.id (Push.head_commit (Push.payload event)))
        ++ "?access_token=" ++ accessToken config
  /\ headers args = [("User-Agent", "request"); ("Content-Type", "application/json")]
  /\ (data args = pending_status \/ data args = success_status
      \/ data args = failure_status).
Proof.
  unfold on_push.
  destruct (indexOf (deployFor config) (Push.ref (Push.payload event)) >=? 0)%Z;
    [|intros []].
  unfold bind. cbn [console_log emit completion world effects app].
  pose proof (deployProcess_run config env (Push.payload event) w) as Hd.
  cbv zeta in Hd. rewrite Hd. clear Hd. cbn [effects].
  intros [H|[H|H]]; [discriminate H|discriminate H|].
  apply in_app_or in H as [H|H].
  - apply buildProcess_posts in H as [Hurl Hargs]. split; [exact Hurl|].
    destruct Hargs as [->|[c ->]].
    + split; [reflexivity|]. left. reflexivity.
    + split; [reflexivity|]. right. rewrite status_args_data. apply final_status_cases.
  - destruct H as [H|[]].
    destruct (completion (buildProcess config env (Push.payload event)
                            (Some (output_file config (now w))) (tick_exec w)));
      discriminate H.
Qed.

(** The final post of a passed build. *)
Lemma push_posts_only_commit_statuses_witness :
  exists url args,
    In (ClientPost url args)
       (effects (on_push sample_config (env_exit 0) (sample_push "refs/heads/develop")
                   fresh_world))
    /\ url = "https://api.example.com/statuses/abc123?access_token=t0ken"
    /\ data args = success_status.
Proof.
  exists "https://api.example.com/statuses/abc123?access_token=t0ken",
         (status_args success_status).
  assert (Hin : In (ClientPost "https://api.example.com/statuses/abc123?access_token=t0ken"
                      (status_args success_status))
                   (effects (on_push sample_config (env_exit 0)
                               (sample_push "refs/heads/develop") fresh_world))).
  { rewrite on_push_ex. simpl. tauto. }
  split; [exact Hin|].
  destruct (push_posts_only_commit_statuses sample_config (env_exit 0)
              (sample_push "refs/heads/develop") fresh_world _ _ Hin) as (Hurl & _ & _).
  split; [exact Hurl|reflexivity].
Defined.

(** X7.  A deploy whose pending post is acknowledged runs four commands,
    whatever becomes of the final post: it touches the file named
    [config.output], the clock reading and [.txt]; pulls or clones by
    whether the working directory of the commit exists; installs; and
    runs the tests, appending their output to the fixed directory followed
    by that same file name. *)
Theorem deploy_commands (config : Config) (env : Env) (p : Push.Payload) (w : World) :
  acked env (posts_made w) = true ->
  let file := output config ++ string_of_Z (now w) ++ ".txt" in
  let cwd := workdir (Push.id (Push.head_commit p)) in
  executed (effects (deployProcess config env p w))
  = ["touch " ++ file;
     if existsSync cwd w then "git pull"
     else "git clone " ++ Push.clone_url (Push.repository p) ++ " " ++ cwd;
     "npm install";
     "npm test >> /Users/santhoshraju/Documents/github-node-webhook/" ++ file].
Proof.
  intros Hack file cwd.
  rewrite deployProcess_executed.
  rewrite (buildProcess_executed config env p _ (tick_exec w) Hack).
  reflexivity.
Qed.

(** A second deploy of a commit whose working directory exists. *)
Lemma deploy_commands_witness :
  let w := add_dirs [workdir "abc123"] fresh_world in
  acked (env_final_lost 0) (posts_made w) = true
  /\ executed (effects (deployProcess sample_config (env_final_lost 0)
                          (Push.payload (sample_push "refs/heads/master")) w))
     = ["touch out/1700000000000.txt"; "git pull"; "npm install";
        "npm test >> /Users/santhoshraju/Documents/github-node-webhook/out/1700000000000.txt"].
Proof.
  cbv zeta. split; [reflexivity|].
  exact (deploy_commands sample_config (env_final_lost 0)
           (Push.payload (sample_push "refs/heads/master"))
           (add_dirs [workdir "abc123"] fresh_world) eq_refl).
Defined.

(** X9.  There is no retry: whatever the event, the replies and the exit
    codes, one push makes at most two posts and runs at most four shell
    commands. *)
Theorem push_never_retries (config : Config) (env : Env) (event : Push.Event) (w : World) :
  List.length (posted (effects (on_push config env event w))) <= 2
  /\ List.length (executed (effects (on_push config env event w))) <= 4.
Proof.
  unfold on_push.
  destruct (indexOf (deployFor config) (Push.ref (Push.payload event)) >=? 0)%Z;
    [|simpl; lia].
  unfold bind. cbn [console_log emit completion world effects app posted executed].
  rewrite deployProcess_posted, deployProcess_executed, buildProcess_posted.
  change (posts_made (tick_exec w)) with (posts_made w).
  destruct (acked env (posts_made w)) eqn:Hack.
  - rewrite (buildProcess_executed config env _ _ (tick_exec w) Hack). simpl. lia.
  - rewrite (buildProcess_rejected config env _ _ (tick_exec w) Hack). simpl. lia.
Qed.

(** ** A status URL without a placeholder *)

Lemma splitFirst_None (pat s : string) : ~ occurs pat s -> splitFirst pat s = None.
Proof.
  induction s as [|c s IH]; intros Hno.
  - simpl. destruct (stripPrefix pat "") as [rest|] eqn:E; [|reflexivity].
    exfalso. apply Hno. exists "", rest. exact (stripPrefix_Some _ _ _ E).
  - cbn [splitFirst].
    destruct (stripPrefix pat (String c s)) as [rest|] eqn:E.
    + exfalso. apply Hno. exists "", rest. exact (stripPrefix_Some _ _ _ E).
    + rewrite IH; [reflexivity|].
      intros (a & b & Hs). apply Hno. exists (String c a), b. simpl. now rewrite Hs.
Qed.

Lemma splitFirst_occurs (pat s : string) : occurs pat s -> splitFirst pat s <> None.
Proof.
  intros (a & b & Hs). subst s. induction a as [|c a IH].
  - change ("" ++ pat ++ b) with (pat ++ b).
    rewrite (splitFirst_here pat (pat ++ b) b (stripPrefix_app pat b)). discriminate.
  - change (String c a ++ pat ++ b) with (String c (a ++ pat ++ b)). cbn [splitFirst].
    destruct (stripPrefix pat (String c (a ++ pat ++ b))); [discriminate|].
    destruct (splitFirst pat (a ++ pat ++ b)) as [[before after]|]; [discriminate|].
    contradiction.
Qed.

(** X10.  When the status URL holds no [{sha}], a commit-mode report goes
    to the URL as it is: the same request as in pull-request mode, and the
    commit hash appears nowhere in it. *)
Theorem commit_url_without_placeholder (config : Config) (env : Env) (repo : string)
    (st : Status) (commit : option string) (w : World) :
  ~ occurs "{sha}" repo ->
  updateStatus config env "Commit" repo st commit w
  = updateStatus config env "PR" repo st commit w
  /\ hd_error (effects (updateStatus config env "Commit" repo st commit w))
     = Some (ClientPost (repo ++ "?access_token=" ++ accessToken config) (status_args st)).
Proof.
  intros Hno.
  assert (Hurl : forall c, repoURL "Commit" repo c = repo).
  { intros c. unfold repoURL. cbn [String.eqb Ascii.eqb Bool.eqb].
    unfold replace. now rewrite (splitFirst_None _ _ Hno). }
  assert (Hpr : forall c, repoURL "PR" repo c = repo) by reflexivity.
  destruct (acked env (posts_made w)) eqn:Hack.
  - rewrite !(updateStatus_acked config env _ _ _ _ _ Hack), Hurl, Hpr. auto.
  - rewrite !(updateStatus_rejected config env _ _ _ _ _ Hack), Hurl, Hpr. auto.
Qed.

(** The status URL of a pull request, used in commit mode. *)
Lemma commit_url_without_placeholder_witness :
  ~ occurs "{sha}" "https://api.example.com/statuses/abc123"
  /\ hd_error (effects (updateStatus sample_config (env_exit 0) "Commit"
                          "https://api.example.com/statuses/abc123" pending_status
                          (Some "def456") fresh_world))
     = Some (ClientPost "https://api.example.com/statuses/abc123?access_token=t0ken"
               (status_args pending_status)).
Proof.
  assert (Hno : ~ occurs "{sha}" "https://api.example.com/statuses/abc123").
  { intros H. apply splitFirst_occurs in H. apply H. reflexivity. }
  split; [exact Hno|].
  exact (proj2 (commit_url_without_placeholder sample_config (env_exit 0)
                  "https://api.example.com/statuses/abc123" pending_status
                  (Some "def456") fresh_world Hno)).
Defined.

(** ** The output file of a deploy *)

Lemma string_of_Z_inj (a b : Z) : string_of_Z a = string_of_Z b -> a = b.
Proof.
  unfold string_of_Z. intros H.
  assert (Hnot : forall z, Z.to_int z <> Decimal.Pos Decimal.Nil
                           /\ Z.to_int z <> Decimal.Neg Decimal.Nil).
  { intros [|q|q]; simpl; split; try discriminate; intros E; inversion E as [E'];
      exact (DecimalPos.Unsigned.to_uint_nonnil q E'). }
  apply DecimalZ.to_int_inj.
  assert (Hs : Some (Z.to_int a) = Some (Z.to_int b)).
  { rewrite <- (NilZero.isi (Z.to_int a)) by apply Hnot.
    rewrite <- (NilZero.isi (Z.to_int b)) by apply Hnot.
    now rewrite H. }
  now inversion Hs.
Qed.

(** X11.  Two deploys touch the same output file exactly when they read
    the same clock value: deploys started at different milliseconds write
    to different files, and deploys within one millisecond share one,
    whatever their commits. *)
Theorem output_file_by_clock (config : Config) (env1 env2 : Env)
    (p1 p2 : Push.Payload) (w1 w2 : World) :
  hd_error (executed (effects (deployProcess config env1 p1 w1)))
  = hd_error (executed (effects (deployProcess config env2 p2 w2)))
  <-> now w1 = now w2.
Proof.
  rewrite !deployProcess_executed. cbn [hd_error]. unfold output_file. split.
  - intros H. inversion H as [Hfile].
    apply append_cancel_l in Hfile. apply append_cancel_r in Hfile.
    now apply string_of_Z_inj.
  - intros H. now rewrite H.
Qed.

(** ** The earlier version against the later one *)

Section Earlier.

Variable config : Config.
Variable env : Env.

(** The earlier [makeBuild] is the later one but for the test command. *)
Lemma V1_makeBuild_run (cloneURL cwd : string) (outputFile : option string) (w : World) :
  V1.makeBuild env cloneURL cwd w
  = {| completion := completion (makeBuild env cloneURL cwd outputFile w);
       world := world (makeBuild env cloneURL cwd outputFile w);
       effects := removelast (effects (makeBuild env cloneURL cwd outputFile w))
                  ++ [ShellExec "npm test"] |}.
Proof.
  destruct (existsSync cwd w) eqn:E.
  - rewrite (makeBuild_present env _ _ _ _ E).
    unfold V1.makeBuild, bind, fs_existsSync. cbn [completion world effects].
    rewrite E. reflexivity.
  - rewrite (makeBuild_absent env _ _ _ _ E).
    unfold V1.makeBuild, bind, fs_existsSync. cbn [completion world effects].
    rewrite E. reflexivity.
Qed.

Lemma V1_makeBuild_summary (cloneURL cwd : string) (w : World) :
  let o := V1.makeBuild env cloneURL cwd w in
  completion o = Normal {| code := exec_code env (2 + execs_made w) |}
  /\ world o = world (makeBuild env cloneURL cwd None w)
  /\ posted (effects o) = []
  /\ executed (effects o) = [fetch_command cloneURL cwd w; "npm install"; "npm test"].
Proof.
  cbv zeta. rewrite (V1_makeBuild_run cloneURL cwd None w). cbn [completion world effects].
  unfold fetch_command. destruct (existsSync cwd w) eqn:E.
  - rewrite (makeBuild_present env _ _ _ _ E). repeat split.
  - rewrite (makeBuild_absent env _ _ _ _ E). repeat split.
Qed.

(** The world after a build does not depend on the output file. *)
Lemma makeBuild_world_any_output (cloneURL cwd : string) (out1 out2 : option string)
    (w : World) :
  world (makeBuild env cloneURL cwd out1 w) = world (makeBuild env cloneURL cwd out2 w).
Proof.
  destruct (existsSync cwd w) eqn:E.
  - now rewrite !(makeBuild_present env _ _ _ _ E).
  - now rewrite !(makeBuild_absent env _ _ _ _ E).
Qed.

(** The earlier commit pipeline once its pending post is acknowledged. *)
Lemma V1_buildProcess_run (p : Push.Payload) (w : World) :
  acked env (posts_made w) = true ->
  let b := V1.makeBuild env (Push.clone_url (Push.repository p))
             (workdir (Push.id (Push.head_commit p))) (tick_post w) in
  let c := exec_code env (2 + execs_made w) in
  V1.buildProcess config env p w =
  {| completion := if acked env (S (posts_made w)) then Normal tt else Throw JUndefined;
     world := tick_post (world b);
     effects :=
       [ClientPost (commit_status_url config p) (status_args pending_status);
        ConsoleLog "Status updated"]
       ++ effects b
       ++ [ClientPost (commit_status_url config p) (status_args (final_status c));
           if acked env (S (posts_made w)) then ConsoleLog "Status updated"
           else ConsoleError "Something went wrong"] |}.
Proof.
  intros Hack. cbv zeta.
  pose proof (V1_makeBuild_summary (Push.clone_url (Push.repository p))
                (workdir (Push.id (Push.head_commit p))) (tick_post w)) as Hb.
  cbv zeta in Hb. unfold V1.buildProcess, bind. unfold workdir in *.
  rewrite updateStatus_acked by exact Hack.
  cbn [completion world effects].
  set (b := V1.makeBuild env _ _ (tick_post w)) in *.
  destruct Hb as (Hc & Hw & _).
  assert (Hposts : posts_made (world b) = S (posts_made w)).
  { rewrite Hw.
    destruct (makeBuild_summary env (Push.clone_url (Push.repository p))
                ("/Users/santhoshraju/Documents/github-node-webhook/PRS/"
                 ++ Push.id (Push.head_commit p)) None (tick_post w)) as (_ & Hn & _).
    exact Hn. }
  clearbody b. clear Hw.
  rewrite Hc. cbn [completion world effects code].
  rewrite final_status_eq.
  destruct (acked env (S (posts_made w))) eqn:Hfin.
  - rewrite updateStatus_acked by (rewrite Hposts; exact Hfin).
    cbn [completion world effects ret]. rewrite app_nil_r. reflexivity.
  - rewrite updateStatus_rejected by (rewrite Hposts; exact Hfin).
    reflexivity.
Qed.

Lemma V1_buildProcess_rejected (p : Push.Payload) (w : World) :
  acked env (posts_made w) = false ->
  V1.buildProcess config env p w =
  {| completion := Throw JUndefined;
     world := tick_post w;
     effects := [ClientPost (commit_status_url config p) (status_args pending_status);
                 ConsoleError "Something went wrong"] |}.
Proof.
  intros Hack. unfold V1.buildProcess. unfold bind at 1.
  rewrite updateStatus_rejected by exact Hack. reflexivity.
Qed.

(** The earlier pull-request pipeline once its pending post is
    acknowledged. *)
Lemma V1_buildPRProcess_run (p : PR.Payload) (w : World) :
  acked env (posts_made w) = true ->
  let b := V1.makeBuild env (PR.clone_url (PR.repo (PR.base (PR.pull_request p))))
             (workdir (PR.sha (PR.head (PR.pull_request p)))) (tick_post w) in
  let c := exec_code env (2 + execs_made w) in
  V1.buildPRProcess config env p w =
  {| completion := if acked env (S (posts_made w)) then Normal tt else Throw JUndefined;
     world := tick_post (world b);
     effects :=
       [ClientPost (pr_status_url config p) (status_args pending_status);
        ConsoleLog "Status updated"]
       ++ effects b
       ++ [ClientPost (pr_status_url config p) (status_args (final_status c));
           if acked env (S (posts_made w)) then ConsoleLog "Status updated"
           else ConsoleError "Something went wrong"] |}.
Proof.
  intros Hack. cbv zeta.
  pose proof (V1_makeBuild_summary (PR.clone_url (PR.repo (PR.base (PR.pull_request p))))
                (workdir (PR.sha (PR.head (PR.pull_request p)))) (tick_post w)) as Hb.
  cbv zeta in Hb. unfold V1.buildPRProcess, bind. unfold workdir in *.
  rewrite updateStatus_acked by exact Hack.
  cbn [completion world effects].
  set (b := V1.makeBuild env _ _ (tick_post w)) in *.
  destruct Hb as (Hc & Hw & _).
  assert (Hposts : posts_made (world b) = S (posts_made w)).
  { rewrite Hw.
    destruct (makeBuild_summary env (PR.clone_url (PR.repo (PR.base (PR.pull_request p))))
                ("/Users/santhoshraju/Documents/github-node-webhook/PRS/"
                 ++ PR.sha (PR.head (PR.pull_request p))) None (tick_post w))
      as (_ & Hn & _).
    exact Hn. }
  clearbody b. clear Hw.
  rewrite Hc. cbn [completion world effects code].
  rewrite final_status_eq.
  destruct (acked env (S (posts_made w))) eqn:Hfin.
  - rewrite updateStatus_acked by (rewrite Hposts; exact Hfin).
    cbn [completion world effects ret]. rewrite app_nil_r. reflexivity.
  - rewrite updateStatus_rejected by (rewrite Hposts; exact Hfin).
    reflexivity.
Qed.

Lemma V1_buildPRProcess_rejected (p : PR.Payload) (w : World) :
  acked env (posts_made w) = false ->
  V1.buildPRProcess config env p w =
  {| completion := Throw JUndefined;
     world := tick_post w;
     effects := [ClientPost (pr_status_url config p) (status_args pending_status);
                 ConsoleError "Something went wrong"] |}.
Proof.
  intros Hack. unfold V1.buildPRProcess. unfold bind at 1.
  rewrite updateStatus_rejected by exact Hack. reflexivity.
Qed.

End Earlier.

(** X12.  In the earlier version both handlers start their pipeline for
    every event: the push handler posts the pending status of the pushed
    commit whatever the ref, and the pull-request handler that of the pull
    request.  Nothing catches a rejected post there: the handler's promise
    is rejected, without a reason, as soon as one of the two posts is. *)
Theorem earlier_handlers_unguarded (config : Config) (env : Env) (w : World) :
  (forall event : Push.Event,
      hd_error (effects (V1.on_push config env event w))
      = Some (ClientPost (commit_status_url config (Push.payload event))
                (status_args pending_status))
      /\ completion (V1.on_push config env event w)
         = if acked env (posts_made w) && acked env (S (posts_made w))
           then Normal tt else Throw JUndefined)
  /\ (forall event : PR.Event,
         hd_error (effects (V1.on_pull_request config env event w))
         = Some (ClientPost (pr_status_url config (PR.payload event))
                   (status_args pending_status))
         /\ completion (V1.on_pull_request config env event w)
            = if acked env (posts_made w) && acked env (S (posts_made w))
              then Normal tt else Throw JUndefined).
Proof.
  split; intros event.
  - unfold V1.on_push. destruct (acked env (posts_made w)) eqn:Hack.
    + pose proof (V1_buildProcess_run config env (Push.payload event) w Hack) as Hb.
      cbv zeta in Hb. rewrite Hb. cbn [completion effects app hd_error andb]. auto.
    + rewrite (V1_buildProcess_rejected config env (Push.payload event) w Hack).
      cbn [completion effects hd_error andb]. auto.
  - unfold V1.on_pull_request. destruct (acked env (posts_made w)) eqn:Hack.
    + pose proof (V1_buildPRProcess_run config env (PR.payload event) w Hack) as Hb.
      cbv zeta in Hb. rewrite Hb. cbn [completion effects app hd_error andb]. auto.
    + rewrite (V1_buildPRProcess_rejected config env (PR.payload event) w Hack).
      cbn [completion effects hd_error andb]. auto.
Qed.

(** X13.  The later version changed the commit pipeline in two ways only:
    the test command, which now appends its output to a file, and the
    value returned.  From the same world and with the same replies and
    exit codes, both versions post the same statuses, log the same lines,
    leave the same world, and end normally or in a rejection together;
    their commands are the same but for the test command. *)
Theorem versions_differ_in_test_command (config : Config) (env : Env)
    (p : Push.Payload) (outputFile : option string) (w : World) :
  let old := V1.buildProcess config env p w in
  let new := buildProcess config env p outputFile w in
  world old = world new
  /\ posted (effects old) = posted (effects new)
  /\ logged (effects old) = logged (effects new)
  /\ (completion old = Normal tt <-> exists c, completion new = Normal c)
  /\ (acked env (posts_made w) = true ->
      exists fetch,
        executed (effects old) = [fetch; "npm install"; "npm test"]
        /\ executed (effects new) = [fetch; "npm install"; npm_test outputFile]).
Proof.
  cbv zeta. destruct (acked env (posts_made w)) eqn:Hack.
  - pose proof (V1_buildProcess_run config env p w Hack) as Ho. cbv zeta in Ho.
    pose proof (buildProcess_run config env p outputFile w Hack) as Hn. cbv zeta in Hn.
    rewrite Ho, Hn. cbn [completion world effects]. clear Ho Hn.
    destruct (V1_makeBuild_summary env (Push.clone_url (Push.repository p))
                (workdir (Push.id (Push.head_commit p))) (tick_post w))
      as (_ & Hw & Hp1 & He1).
    destruct (makeBuild_summary env (Push.clone_url (Push.repository p))
                (workdir (Push.id (Push.head_commit p))) outputFile (tick_post w))
      as (_ & _ & _ & Hp2 & Hl2 & _).
    pose proof (makeBuild_executed env (Push.clone_url (Push.repository p))
                  (workdir (Push.id (Push.head_commit p))) outputFile (tick_post w)) as He2.
    assert (Hl1 : logged (effects (V1.makeBuild env (Push.clone_url (Push.repository p))
                                     (workdir (Push.id (Push.head_commit p))) (tick_post w)))
                  = []).
    { rewrite (V1_makeBuild_run env _ _ outputFile).
      cbn [effects]. destruct (existsSync (workdir (Push.id (Push.head_commit p)))
                                 (tick_post w)) eqn:E.
      - now rewrite (makeBuild_present env _ _ _ _ E).
      - now rewrite (makeBuild_absent env _ _ _ _ E). }
    rewrite (makeBuild_world_any_output env _ _ None outputFile) in Hw.
    set (b1 := V1.makeBuild env _ _ _) in *. set (b2 := makeBuild env _ _ _ _) in *.
    clearbody b1 b2.
    split; [now rewrite Hw|].
    split; [read_effects; now rewrite Hp1, Hp2|].
    split; [read_effects; now rewrite Hl1, Hl2|].
    split.
    + destruct (acked env (S (posts_made w))); split; try discriminate; eauto.
      intros [c Hc]. discriminate Hc.
    + intros _. eexists. rewrite !executed_app, He1, He2.
      destruct (acked env (S (posts_made w))); split; reflexivity.
  - rewrite (V1_buildProcess_rejected config env p w Hack).
    rewrite (buildProcess_rejected config env p outputFile w Hack).
    cbn [completion world effects].
    repeat split; try discriminate.
    intros [c Hc]. discriminate Hc.
Qed.

(** A push on a fresh machine, in both versions. *)
Lemma versions_differ_in_test_command_witness :
  let p := Push.payload (sample_push "refs/heads/develop") in
  acked (env_exit 0) (posts_made fresh_world) = true
  /\ exists fetch,
       executed (effects (V1.buildProcess sample_config (env_exit 0) p fresh_world))
       = [fetch; "npm install"; "npm test"]
       /\ executed (effects (buildProcess sample_config (env_exit 0) p (Some "out.txt")
                               fresh_world))
          = [fetch; "npm install"; npm_test (Some "out.txt")].
Proof.
  cbv zeta. split; [reflexivity|].
  exact (proj2 (proj2 (proj2 (proj2
           (versions_differ_in_test_command sample_config (env_exit 0)
              (Push.payload (sample_push "refs/heads/develop")) (Some "out.txt")
              fresh_world)))) eq_refl).
Defined.

(** ** Registering the webhook *)

(** X14.  [createWebhook] makes one post, to the repository's hooks URL
    with the access token, asking for the [push] and [pull_request]
    events under the configured name and secret.  It resolves with the
    reply's data exactly when that data is truthy, after logging it;
    otherwise it is rejected without a reason, and, unlike
    [updateStatus], the line it logs ends with the response body. *)
Theorem createWebhook_settles (cfg : Config) (env : Env) (repo hook_url : string)
    (w : World) :
  let r := post_reply env (posts_made w) in
  let o := Hook.createWebhook cfg env repo hook_url w in
  (exists args rest,
      Hook.effects o = Hook.Post (repo ++ "?access_token=" ++ accessToken cfg) args :: rest
      /\ Hook.events (Hook.data args) = ["push"; "pull_request"]
      /\ Hook.name (Hook.data args) = webhookPath cfg
      /\ Hook.secret (Hook.config (Hook.data args)) = secret cfg
      /\ Hook.url (Hook.config (Hook.data args)) = hook_url
      /\ forall target args', ~ In (Hook.Post target args') rest)
  /\ (truthy (reply_data r) = true <->
      Hook.completion o = Normal (reply_data r))
  /\ (truthy (reply_data r) = true ->
      last (Hook.effects o) (Hook.Log "") = Hook.LogValue (reply_data r))
  /\ (truthy (reply_data r) = false <-> Hook.completion o = Throw JUndefined)
  /\ (truthy (reply_data r) = false ->
      last (Hook.effects o) (Hook.Log "")
      = Hook.Error ("Error on creating webhook: " ++ toString (body (reply_response r))))
  /\ posts_made (Hook.world o) = S (posts_made w).
Proof.
  intros r o. subst o. unfold Hook.createWebhook. fold r.
  destruct (truthy (reply_data r)) eqn:Ht; cbn [Hook.completion Hook.effects Hook.world].
  - split.
    { eexists _, _. split; [reflexivity|]. repeat split.
      intros target args' [H|[H|[]]]; discriminate H. }
    split; [tauto|]. split; [reflexivity|].
    split; [split; discriminate|]. split; [discriminate|reflexivity].
  - split.
    { eexists _, _. split; [reflexivity|]. repeat split.
      intros target args' [H|[]]; discriminate H. }
    split; [split; discriminate|]. split; [discriminate|].
    split; [tauto|]. split; [reflexivity|reflexivity].
Qed.

(** A reply without data and with a response body. *)
Lemma createWebhook_settles_witness :
  let o := Hook.createWebhook sample_config (env_reply null_reply 0)
             "https://api.example.com/repos/o/r/hooks" "http://ci.example.com/webhook"
             fresh_world in
  truthy (reply_data (post_reply (env_reply null_reply 0) (posts_made fresh_world))) = false
  /\ Hook.completion o = Throw JUndefined
  /\ last (Hook.effects o) (Hook.Log "")
     = Hook.Error "Error on creating webhook: Bad Gateway".
Proof.
  cbv zeta.
  destruct (createWebhook_settles sample_config (env_reply null_reply 0)
              "https://api.example.com/repos/o/r/hooks" "http://ci.example.com/webhook"
              fresh_world) as (_ & _ & _ & Hthrow & Hline & _).
  split; [reflexivity|]. split.
  - apply Hthrow. reflexivity.
  - apply Hline. reflexivity.
Defined.

(** ** Exit codes that are never read *)

(** X15.  Of the three commands of a build only the exit code of the test
    command is read.  Two environments that give the same replies and the
    same exit code to the test command, and any exit codes to the clone or
    pull and to the install, give the same pipeline: same effects, same
    world, same result.  A failed clone or install stops nothing and
    changes no status. *)
Theorem only_test_exit_code_matters (config : Config) (env1 env2 : Env)
    (p : Push.Payload) (outputFile : option string) (w : World) :
  (forall n, post_reply env1 n = post_reply env2 n) ->
  exec_code env1 (2 + execs_made w) = exec_code env2 (2 + execs_made w) ->
  buildProcess config env1 p outputFile w = buildProcess config env2 p outputFile w.
Proof.
  intros Hreply Hcode.
  assert (Hack : forall n, acked env1 n = acked env2 n).
  { intros n. unfold acked. now rewrite Hreply. }
  assert (Hbuild : forall url cwd w',
             world (makeBuild env1 url cwd outputFile w')
             = world (makeBuild env2 url cwd outputFile w')
             /\ effects (makeBuild env1 url cwd outputFile w')
                = effects (makeBuild env2 url cwd outputFile w')).
  { intros url cwd w'. destruct (existsSync cwd w') eqn:E.
    - rewrite (makeBuild_present env1 _ _ _ _ E), (makeBuild_present env2 _ _ _ _ E). auto.
    - rewrite (makeBuild_absent env1 _ _ _ _ E), (makeBuild_absent env2 _ _ _ _ E). auto. }
  destruct (acked env1 (posts_made w)) eqn:H1.
  - pose proof (buildProcess_run config env1 p outputFile w H1) as R1. cbv zeta in R1.
    rewrite Hack in H1.
    pose proof (buildProcess_run config env2 p outputFile w H1) as R2. cbv zeta in R2.
    rewrite R1, R2, Hack, Hcode.
    destruct (Hbuild (Push.clone_url (Push.repository p))
                (workdir (Push.id (Push.head_commit p))) (tick_post w)) as [Hw He].
    now rewrite Hw, He.
  - rewrite (buildProcess_rejected config env1 p outputFile w H1).
    rewrite Hack in H1.
    now rewrite (buildProcess_rejected config env2 p outputFile w H1).
Qed.

(** Clone and install fail with 128, the tests pass: the same pipeline, and
    the same [success], as when nothing fails. *)
Lemma only_test_exit_code_matters_witness :
  let failing := {| post_reply := fun _ => ok_reply;
                    exec_code := fun n => match n with 2 => 0%Z | _ => 128%Z end |} in
  let p := Push.payload (sample_push "refs/heads/develop") in
  exec_code failing 0 = 128%Z
  /\ exec_code failing 1 = 128%Z
  /\ buildProcess sample_config failing p None fresh_world
     = buildProcess sample_config (env_exit 0) p None fresh_world.
Proof.
  cbv zeta. split; [reflexivity|]. split; [reflexivity|].
  exact (only_test_exit_code_matters sample_config
           {| post_reply := fun _ => ok_reply;
              exec_code := fun n => match n with 2 => 0%Z | _ => 128%Z end |}
           (env_exit 0) (Push.payload (sample_push "refs/heads/develop")) None fresh_world
           (fun _ => eq_refl) eq_refl).
Defined.

(** ** Containment, with posts that may fail in transport *)

Section Transport.

Variable config : Config.
Variable env : Env.
Variable transport : nat -> option jsval.

(** A report whose post fails in transport ends outside the program's
    reach; an answered one runs as [updateStatus] above. *)
Lemma Net_updateStatus_run (proc repo : string) (st : Status) (c : option string)
    (w : World) :
  Net.updateStatus config env transport proc repo st c w
  = match transport (posts_made w) with
    | Some err =>
        {| Net.settlement := Net.Uncaught err;
           Net.after := tick_post w;
           Net.trace := [ClientPost (repoURL proc repo (match c with Some x => x | None => "" end)
                                    ++ "?access_token=" ++ accessToken config)
                                   (status_args st)] |}
    | None => Net.lift (updateStatus config env proc repo st c) w
    end.
Proof.
  unfold Net.updateStatus, Net.bind, Net.client_post. cbn [Net.settlement Net.after Net.trace].
  destruct (transport (posts_made w)) as [err|] eqn:Et.
  - reflexivity.
  - unfold Net.lift. destruct (acked env (posts_made w)) eqn:Hack.
    + rewrite (updateStatus_acked config env _ _ _ _ _ Hack).
      unfold acked in Hack. rewrite Hack. reflexivity.
    + rewrite (updateStatus_rejected config env _ _ _ _ _ Hack).
      unfold acked in Hack. rewrite Hack. reflexivity.
Qed.











(** With every post answered the handlers run as the handlers above. *)
Lemma Net_lift_bind {A B} (m : M A) (k : A -> M B) (w : World) :
  Net.lift (bind m k) w = Net.bind (Net.lift m) (fun a => Net.lift (k a)) w.
Proof.
  unfold Net.lift, Net.bind, bind. cbn [Net.settlement Net.after Net.trace].
  destruct (completion (m w)); reflexivity.
Qed.

Lemma Net_bind_ext {A B} (m1 m2 : Net.M A) (k1 k2 : A -> Net.M B) (w : World) :
  m1 w = m2 w -> (forall a w', k1 a w' = k2 a w') ->
  Net.bind m1 k1 w = Net.bind m2 k2 w.
Proof.
  intros Hm Hk. unfold Net.bind. rewrite Hm.
  destruct (Net.settlement (m2 w)); [rewrite Hk|..]; reflexivity.
Qed.

Lemma Net_lift_tryCatch {A} (body : M A) (handler : jsval -> M A) (w : World) :
  Net.lift (tryCatch body handler) w
  = Net.tryCatch (Net.lift body) (fun e => Net.lift (handler e)) w.
Proof.
  unfold Net.lift, Net.tryCatch, tryCatch. cbn [Net.settlement Net.after Net.trace].
  destruct (body w) as [[a|e] w' es]; reflexivity.
Qed.

Lemma Net_tryCatch_ext {A} (b1 b2 : Net.M A) (h : jsval -> Net.M A) (w : World) :
  b1 w = b2 w -> Net.tryCatch b1 h w = Net.tryCatch b2 h w.
Proof. intros Hb. unfold Net.tryCatch. now rewrite Hb. Qed.

Hypothesis every_post_answered : forall n, transport n = None.

Lemma Net_updateStatus_answered (proc repo : string) (st : Status) (c : option string)
    (w : World) :
  Net.updateStatus config env transport proc repo st c w
  = Net.lift (updateStatus config env proc repo st c) w.
Proof. now rewrite Net_updateStatus_run, every_post_answered. Qed.

Lemma Net_buildProcess_answered (p : Push.Payload) (outputFile : option string) (w : World) :
  Net.buildProcess config env transport p outputFile w
  = Net.lift (buildProcess config env p outputFile) w.
Proof.
  unfold Net.buildProcess, buildProcess.
  rewrite Net_lift_bind. apply Net_bind_ext; [apply Net_updateStatus_answered|].
  intros _ w1. rewrite Net_lift_bind. apply Net_bind_ext; [reflexivity|].
  intros result w2. rewrite Net_lift_bind.
  apply Net_bind_ext; [apply Net_updateStatus_answered|reflexivity].
Qed.

Lemma Net_deployProcess_answered (p : Push.Payload) (w : World) :
  Net.deployProcess config env transport p w = Net.lift (deployProcess config env p) w.
Proof.
  unfold Net.deployProcess, deployProcess. rewrite Net_lift_tryCatch.
  apply Net_tryCatch_ext.
  unfold Net.deployProcess_try, deployProcess_try.
  rewrite Net_lift_bind. apply Net_bind_ext; [reflexivity|].
  intros t w1. rewrite Net_lift_bind. apply Net_bind_ext; [reflexivity|].
  intros _ w2. rewrite Net_lift_bind. apply Net_bind_ext; [apply Net_buildProcess_answered|].
  intros c w3. destruct (c =? 0)%Z; reflexivity.
Qed.

Lemma Net_on_push_answered (event : Push.Event) (w : World) :
  Net.on_push config env transport event w = Net.lift (on_push config env event) w.
Proof.
  unfold Net.on_push, on_push.
  destruct (indexOf (deployFor config) (Push.ref (Push.payload event)) >=? 0)%Z;
    [|reflexivity].
  rewrite Net_lift_bind. apply Net_bind_ext; [reflexivity|].
  intros _ w1. apply Net_deployProcess_answered.
Qed.

End Transport.




